(** * Subscription / credit synchronisation core of the renderer process

    A shallow embedding of [src/App.tsx] (components [App] and [AppContent])
    and of [src/components/shared/LanguageSelector.tsx].

    The two React components keep separate state cells; the remote
    [subscriptions] table, the realtime channels, the listeners registered on
    [window.electronAPI.onSolutionSuccess], the console and the [window]
    globals are made explicit in one [World] record that every operation
    threads through.  An [async] function runs to completion in one step; the
    outcome of each network call it awaits is an explicit boolean input
    ([true]: the request reached the backend, [false]: transient failure).

    Left out, as they bear on rendering only: the [loading] and
    [subscriptionLoading] flags, the toast state, [console.log] lines and
    the react-query cache invalidation.  The columns [credits] and
    [preferred_language] are taken to be NOT NULL, [credits] an integer. *)

From Stdlib Require Import ZArith.
From stdpp Require Import base option list gmap strings.

Open Scope string_scope.
Open Scope list_scope.
Open Scope Z_scope.

(** ** The remote [subscriptions] table as the client sees it

    The backend and the client object of [./lib/supabase] are not among the
    sources; the four queries the components issue are modelled on a table
    with at most one row per user, with no constraint on the values
    written. *)

(** One row per [user_id]; the columns the client selects. *)
Record Row := { credits : Z; preferred_language : string }.

Inductive PostgrestError :=
| PGRST116      (* [.single()] found no row *)
| FetchError.   (* the request failed in transit *)

(** The [{ data, error }] object every query resolves to. *)
Record PostgrestResponse (A : Type) :=
  { data : option A; error : option PostgrestError }.
Arguments data {A} _.
Arguments error {A} _.

Definition fulfilled {A} (a : A) : PostgrestResponse A :=
  {| data := Some a; error := None |}.
Definition failed {A} (e : PostgrestError) : PostgrestResponse A :=
  {| data := None; error := Some e |}.

(** Modelled from the spec: [readRecord(identity) -> SubscriptionRecord |
    absent], as [.select(..).eq("user_id", uid).single()] reports it: the
    row as [data], and an error with null [data] when there is no row or
    the request fails. *)
Definition single (online : bool) (uid : string) (t : gmap string Row)
  : PostgrestResponse Row :=
  if online then
    match t !! uid with
    | Some r => fulfilled r
    | None => failed PGRST116
    end
  else failed FetchError.

(** Modelled from the spec: [readRecord(identity) -> SubscriptionRecord |
    absent], as [.select(..).eq("user_id", user?.id).maybeSingle()] reports
    it: no row is null [data] without error; an undefined id matches no
    row. *)
Definition maybeSingle (online : bool) (uid : option string)
    (t : gmap string Row) : PostgrestResponse Row :=
  if online then {| data := uid ≫= (t !!.); error := None |}
  else failed FetchError.

(** The fields an [.update({..})] call carries. *)
Inductive Patch :=
| patch_credits (c : Z)
| patch_preferred_language (l : string).

Definition apply_patch (p : Patch) (r : Row) : Row :=
  match p with
  | patch_credits c =>
      {| credits := c; preferred_language := preferred_language r |}
  | patch_preferred_language l =>
      {| credits := credits r; preferred_language := l |}
  end.

(** Modelled from the spec: [updateRecord(identity, partialFields)], as
    [.update(p).eq("user_id", uid)] reports it: the matching row, if any, is
    written; only [error] comes back, and zero matching rows is not one. *)
Definition update (online : bool) (uid : string) (p : Patch)
    (t : gmap string Row) : gmap string Row * option PostgrestError :=
  if online then
    match t !! uid with
    | Some r => (<[uid := apply_patch p r]> t, None)
    | None => (t, None)
    end
  else (t, Some FetchError).

(** Modelled from the spec: [updateRecord(identity, partialFields) ->
    SubscriptionRecord] (fails if absent), as
    [.update(p).eq("user_id", uid).select("credits").single()] reports it:
    the written row comes back as [data]. *)
Definition update_select_single (online : bool) (uid : string) (p : Patch)
    (t : gmap string Row) : gmap string Row * PostgrestResponse Row :=
  if online then
    match t !! uid with
    | Some r => (<[uid := apply_patch p r]> t, fulfilled (apply_patch p r))
    | None => (t, failed PGRST116)
    end
  else (t, failed FetchError).

(** ** Change events of the realtime feed *)

Record Snapshot := { user_id : string; snapshot : Row }.

Inductive ChangeEvent :=
| Inserted (new : Snapshot)
| Updated (old new : Snapshot)
| Deleted (old : Snapshot).

Inductive EventType := INSERT | UPDATE | DELETE.

#[global] Instance EventType_eq_dec : EqDecision EventType.
Proof. solve_decision. Defined.

Definition eventType (e : ChangeEvent) : EventType :=
  match e with
  | Inserted _ => INSERT
  | Updated _ _ => UPDATE
  | Deleted _ => DELETE
  end.

(** [payload.new]: the empty object on a delete. *)
Definition payload_new (e : ChangeEvent) : option Snapshot :=
  match e with
  | Inserted n => Some n
  | Updated _ n => Some n
  | Deleted _ => None
  end.

(** The row a server-side filter [user_id=eq.<uid>] is matched against. *)
Definition event_user (e : ChangeEvent) : string :=
  match e with
  | Inserted n => user_id n
  | Updated _ n => user_id n
  | Deleted o => user_id o
  end.

(** ** Realtime channels and host listeners *)

(** Which component opened the channel decides the handler that runs. *)
Inductive Handler :=
| credits_handler                              (* App, channel "credits" *)
| sub_and_credits_handler (user : option string). (* AppContent *)

Record Channel :=
  { topic : string;
    event : option EventType;       (* [None] is the wildcard "*" *)
    filter : option string;         (* [user_id=eq.<id>], or undefined *)
    handler : Handler }.

(** The callback given to [window.electronAPI.onSolutionSuccess]: a closure
    over the [isInitialized] of the render that created it and over [user]. *)
Record SolutionSuccessListener :=
  { seen_isInitialized : bool; seen_user : string }.

(** What [initializeAndSubscribe] returns for a signed-in user. *)
Record Cleanup := { cleanup_channel : nat; cleanup_listener : nat }.

Inductive Console :=
| console_warn (msg : string)
| console_error (msg : string) (err : option PostgrestError).

Inductive Request :=
| auth_getUser
| from_select (uid : option string)
| from_update (uid : string) (p : Patch)
| channel_subscribe (id : nat) (c : Channel)
| channel_unsubscribe (id : nat).

(** ** Component state, browser globals and the world *)

Module App.
(** [useState] cells of [App], and what React keeps for its
    credits effect: the dependency value of the last run and the cleanup
    the effect callback returned. *)
Record State :=
  { credits : Z;
    currentLanguage : string;
    isInitialized : bool;
    deps : option bool;
    cleanup : option Cleanup }.

Definition initial : State :=
  {| credits := 0; currentLanguage := "python"; isInitialized := false;
     deps := None; cleanup := None |}.

Definition setCredits (c : Z) (s : State) : State :=
  {| credits := c; currentLanguage := currentLanguage s;
     isInitialized := isInitialized s; deps := deps s;
     cleanup := cleanup s |}.
Definition setCurrentLanguage (l : string) (s : State) : State :=
  {| credits := credits s; currentLanguage := l;
     isInitialized := isInitialized s; deps := deps s;
     cleanup := cleanup s |}.
Definition setIsInitialized (b : bool) (s : State) : State :=
  {| credits := credits s; currentLanguage := currentLanguage s;
     isInitialized := b; deps := deps s; cleanup := cleanup s |}.
Definition committed (d : bool) (c : option Cleanup) (s : State) : State :=
  {| credits := credits s; currentLanguage := currentLanguage s;
     isInitialized := isInitialized s; deps := Some d; cleanup := c |}.
End App.

Module AppContent.
(** [useState] cells of [AppContent]; [deps] is [user?.id] at the last run
    of the subscription effect and [cleanup] the channel it must close. *)
Record State :=
  { user : option string;
    isSubscribed : bool;
    credits : option Z;
    currentLanguage : string;
    deps : option (option string);
    cleanup : option nat }.

Definition initial : State :=
  {| user := None; isSubscribed := false; credits := None;
     currentLanguage := "python"; deps := None; cleanup := None |}.

Definition setUser (u : option string) (s : State) : State :=
  {| user := u; isSubscribed := isSubscribed s; credits := credits s;
     currentLanguage := currentLanguage s; deps := deps s;
     cleanup := cleanup s |}.
Definition setIsSubscribed (b : bool) (s : State) : State :=
  {| user := user s; isSubscribed := b; credits := credits s;
     currentLanguage := currentLanguage s; deps := deps s;
     cleanup := cleanup s |}.
Definition setCredits (c : Z) (s : State) : State :=
  {| user := user s; isSubscribed := isSubscribed s; credits := Some c;
     currentLanguage := currentLanguage s; deps := deps s;
     cleanup := cleanup s |}.
Definition setCurrentLanguage (l : string) (s : State) : State :=
  {| user := user s; isSubscribed := isSubscribed s; credits := credits s;
     currentLanguage := l; deps := deps s; cleanup := cleanup s |}.
Definition committed (d : option string) (c : option nat) (s : State)
  : State :=
  {| user := user s; isSubscribed := isSubscribed s; credits := credits s;
     currentLanguage := currentLanguage s; deps := Some d; cleanup := c |}.
End AppContent.

(** The globals on [window] that the host process reads synchronously;
    [None] is [undefined]. *)
Record Window :=
  { __CREDITS__ : option Z;
    __LANGUAGE__ : option string;
    __IS_INITIALIZED__ : option bool }.

Record World :=
  { app : App.State;
    content : AppContent.State;
    window : Window;
    session : option string;              (* supabase.auth: signed-in user *)
    subscriptions : gmap string Row;      (* the remote table *)
    channels : gmap nat Channel;          (* subscribed realtime channels *)
    listeners : list (nat * SolutionSuccessListener);
    console : list Console;
    requests : list Request;              (* calls made to the backend *)
    next_id : nat }.

Definition with_app (f : App.State → App.State) (w : World) : World :=
  {| app := f (app w); content := content w; window := window w;
     session := session w; subscriptions := subscriptions w;
     channels := channels w; listeners := listeners w;
     console := console w; requests := requests w; next_id := next_id w |}.
Definition with_content (f : AppContent.State → AppContent.State)
    (w : World) : World :=
  {| app := app w; content := f (content w); window := window w;
     session := session w; subscriptions := subscriptions w;
     channels := channels w; listeners := listeners w;
     console := console w; requests := requests w; next_id := next_id w |}.
Definition with_window (f : Window → Window) (w : World) : World :=
  {| app := app w; content := content w; window := f (window w);
     session := session w; subscriptions := subscriptions w;
     channels := channels w; listeners := listeners w;
     console := console w; requests := requests w; next_id := next_id w |}.
Definition with_session (u : option string) (w : World) : World :=
  {| app := app w; content := content w; window := window w;
     session := u; subscriptions := subscriptions w;
     channels := channels w; listeners := listeners w;
     console := console w; requests := requests w; next_id := next_id w |}.
Definition with_subscriptions (t : gmap string Row) (w : World) : World :=
  {| app := app w; content := content w; window := window w;
     session := session w; subscriptions := t;
     channels := channels w; listeners := listeners w;
     console := console w; requests := requests w; next_id := next_id w |}.
Definition with_channels (f : gmap nat Channel → gmap nat Channel)
    (w : World) : World :=
  {| app := app w; content := content w; window := window w;
     session := session w; subscriptions := subscriptions w;
     channels := f (channels w); listeners := listeners w;
     console := console w; requests := requests w; next_id := next_id w |}.
Definition with_listeners
    (f : list (nat * SolutionSuccessListener) →
         list (nat * SolutionSuccessListener)) (w : World) : World :=
  {| app := app w; content := content w; window := window w;
     session := session w; subscriptions := subscriptions w;
     channels := channels w; listeners := f (listeners w);
     console := console w; requests := requests w; next_id := next_id w |}.
Definition print (c : Console) (w : World) : World :=
  {| app := app w; content := content w; window := window w;
     session := session w; subscriptions := subscriptions w;
     channels := channels w; listeners := listeners w;
     console := console w ++ [c]; requests := requests w;
     next_id := next_id w |}.
Definition request (r : Request) (w : World) : World :=
  {| app := app w; content := content w; window := window w;
     session := session w; subscriptions := subscriptions w;
     channels := channels w; listeners := listeners w;
     console := console w; requests := requests w ++ [r];
     next_id := next_id w |}.
Definition fresh (w : World) : nat * World :=
  (next_id w,
   {| app := app w; content := content w; window := window w;
      session := session w; subscriptions := subscriptions w;
      channels := channels w; listeners := listeners w;
      console := console w; requests := requests w;
      next_id := S (next_id w) |}).

(** Nothing mounted, nobody signed in, globals not yet written. *)
Definition boot (t : gmap string Row) : World :=
  {| app := App.initial; content := AppContent.initial;
     window := {| __CREDITS__ := None; __LANGUAGE__ := None;
                  __IS_INITIALIZED__ := None |};
     session := None; subscriptions := t; channels := ∅; listeners := [];
     console := []; requests := []; next_id := 0 |}.

(** ** The supabase client and the host bridge, acting on the world *)

(** [supabase.auth.getUser()]: [{ data: { user } }]. *)
Definition getUser (online : bool) (w : World) : option string * World :=
  (if online then session w else None, request auth_getUser w).

Definition select_single (online : bool) (uid : string) (w : World)
  : PostgrestResponse Row * World :=
  (single online uid (subscriptions w), request (from_select (Some uid)) w).

Definition select_maybeSingle (online : bool) (uid : option string)
    (w : World) : PostgrestResponse Row * World :=
  (maybeSingle online uid (subscriptions w), request (from_select uid) w).

Definition from_update_eq (online : bool) (uid : string) (p : Patch)
    (w : World) : option PostgrestError * World :=
  let r := update online uid p (subscriptions w) in
  (r.2, with_subscriptions r.1 (request (from_update uid p) w)).

Definition from_update_select_single (online : bool) (uid : string)
    (p : Patch) (w : World) : PostgrestResponse Row * World :=
  let r := update_select_single online uid p (subscriptions w) in
  (r.2, with_subscriptions r.1 (request (from_update uid p) w)).

(** [supabase.channel(..).on(..).subscribe()] *)
Definition subscribe (c : Channel) (w : World) : nat * World :=
  let '(id, w) := fresh w in
  (id, request (channel_subscribe id c) (with_channels (insert id c) w)).

(** [channel.unsubscribe()] *)
Definition unsubscribe (id : nat) (w : World) : World :=
  request (channel_unsubscribe id) (with_channels (delete id) w).

(** [window.electronAPI.onSolutionSuccess(callback)]; the result stands for
    the returned unsubscribe function. *)
Definition onSolutionSuccess (l : SolutionSuccessListener) (w : World)
  : nat * World :=
  let '(id, w) := fresh w in
  (id, with_listeners (λ ls, ls ++ [(id, l)]) w).

Definition removeSolutionSuccess (id : nat) (w : World) : World :=
  with_listeners (base.filter (λ il, il.1 ≠ id)) w.

(** ** [App]: the three helpers *)

Definition updateCredits (newCredits : Z) (w : World) : World :=
  with_window
    (λ g, {| __CREDITS__ := Some newCredits; __LANGUAGE__ := __LANGUAGE__ g;
             __IS_INITIALIZED__ := __IS_INITIALIZED__ g |})
    (with_app (App.setCredits newCredits) w).

Definition set_window_language (l : string) (w : World) : World :=
  with_window
    (λ g, {| __CREDITS__ := __CREDITS__ g; __LANGUAGE__ := Some l;
             __IS_INITIALIZED__ := __IS_INITIALIZED__ g |}) w.

Definition set_window_initialized (b : bool) (w : World) : World :=
  with_window
    (λ g, {| __CREDITS__ := __CREDITS__ g; __LANGUAGE__ := __LANGUAGE__ g;
             __IS_INITIALIZED__ := Some b |}) w.

Definition updateLanguage (newLanguage : string) (w : World) : World :=
  set_window_language newLanguage
    (with_app (App.setCurrentLanguage newLanguage) w).

Definition markInitialized (w : World) : World :=
  set_window_initialized true (with_app (App.setIsInitialized true) w).

(** ** [App]: the credits effect *)

(** The "postgres_changes" callback of channel "credits". *)
Definition credits_payload (new : Snapshot) (w : World) : World :=
  let newCredits := credits (snapshot new) in
  updateCredits newCredits w.

(** How the promise of an [async] callback settles. *)
Inductive Settled :=
| resolved                      (* with [undefined] *)
| rejected (reason : string).

(** The callback registered on [onSolutionSuccess].  The subtraction is the
    exact one of [Z]; the one of JavaScript agrees with it as long as both
    numbers are safe integers (at most 2^53 in absolute value). *)
Definition solutionSuccess_callback (l : SolutionSuccessListener)
    (online_select online_update : bool) (w : World) : World * Settled :=
  if negb (seen_isInitialized l) then
    (print (console_warn
              "Attempted to decrement credits before initialization") w,
     resolved)
  else
    let '(r, w) := select_single online_select (seen_user l) w in
    match data r with
    | None =>
        (print (console_error
                  "No subscription found when trying to decrement credits"
                  None) w,
         resolved)
    | Some currentSubscription =>
        let '(r, w) :=
          from_update_select_single online_update (seen_user l)
            (patch_credits (credits currentSubscription - 1)) w in
        match error r with
        | Some e =>
            (print (console_error "Error updating credits:" (Some e)) w,
             resolved)
        | None =>
            match data r with
            | Some updatedSubscription =>
                (updateCredits (credits updatedSubscription) w, resolved)
            | None => (w, rejected "TypeError")
            end
        end
    end.

(** The cleanup function [initializeAndSubscribe] builds. *)
Definition cleanup (c : Cleanup) (w : World) : World :=
  let w := unsubscribe (cleanup_channel c) w in
  let w := removeSolutionSuccess (cleanup_listener c) w in
  let w := set_window_initialized false w in
  with_app (App.setIsInitialized false) w.

(** [initializeAndSubscribe], closed over the [isInitialized] of the render
    whose effect calls it.  The promise resolves to the cleanup function for
    a signed-in user and to [undefined] otherwise. *)
Definition initializeAndSubscribe (isInitialized : bool)
    (online_user online_select : bool) (w : World)
  : World * option Cleanup :=
  let '(user, w) := getUser online_user w in
  match user with
  | None =>
      let w := updateCredits 1 w in
      let w := updateLanguage "python" w in
      let w := markInitialized w in
      (w, None)
  | Some uid =>
      let '(r, w) := select_single online_select uid w in
      let subscription := data r in
      let w := updateCredits (default 1 (credits <$> subscription)) w in
      let w :=
        updateLanguage (default "python"
                          (preferred_language <$> subscription)) w in
      let w := markInitialized w in
      let '(channel, w) :=
        subscribe {| topic := "credits"; event := Some UPDATE;
                     filter := Some uid; handler := credits_handler |} w in
      let '(unsubscribeSolutionSuccess, w) :=
        onSolutionSuccess {| seen_isInitialized := isInitialized;
                             seen_user := uid |} w in
      (w, Some {| cleanup_channel := channel;
                  cleanup_listener := unsubscribeSolutionSuccess |})
  end.

(** The effect callback: it starts [initializeAndSubscribe] and drops the
    promise, so what React receives as cleanup is [undefined]. *)
Definition credits_effect (isInitialized : bool)
    (online_user online_select : bool) (w : World)
  : World * option Cleanup :=
  let '(w, _) :=
    initializeAndSubscribe isInitialized online_user online_select w in
  (w, None).

(** A commit of [App]: React re-runs the effect when [isInitialized] differs
    from the value of the previous run (the other dependencies are stable
    callbacks), after running the cleanup the previous run returned. *)
Definition commit_App (online_user online_select : bool) (w : World)
  : World :=
  let isInitialized := App.isInitialized (app w) in
  if decide (App.deps (app w) = Some isInitialized) then w
  else
    let w := from_option (λ c, cleanup c w) w (App.cleanup (app w)) in
    let '(w, c) :=
      credits_effect isInitialized online_user online_select w in
    with_app (App.committed isInitialized c) w.

(** ** [AppContent]: subscription status *)

(** JavaScript truthiness of a string. *)
Definition truthy (s : string) : bool := bool_decide (s ≠ "").

(** [user?.id] as a condition: there is a user and its id is not empty. *)
Definition has_id (user : option string) : bool :=
  from_option truthy false user.

Definition checkSubscriptionAndCredits (user : option string)
    (online : bool) (w : World) : World :=
  if negb (has_id user) then
    let w := with_content (AppContent.setIsSubscribed false) w in
    let w := with_content (AppContent.setCredits 0) w in
    with_content (AppContent.setCurrentLanguage "python") w
  else
    let '(r, w) := select_maybeSingle online user w in
    let subscription := data r in
    let w :=
      with_content
        (AppContent.setIsSubscribed (bool_decide (is_Some subscription)))
        w in
    let w :=
      with_content
        (AppContent.setCredits (default 0 (credits <$> subscription))) w in
    match subscription with
    | Some s =>
        if truthy (preferred_language s) then
          set_window_language (preferred_language s)
            (with_content
               (AppContent.setCurrentLanguage (preferred_language s)) w)
        else w
    | None => w
    end.

(** The "postgres_changes" callback of channel "sub-and-credits-<id>",
    closed over [user]. *)
Definition sub_and_credits_payload (user : option string) (e : ChangeEvent)
    (online : bool) (w : World) : World :=
  let w :=
    match eventType e with
    | DELETE | UPDATE =>
        let '(r, w) := select_maybeSingle online user w in
        let subscription := data r in
        let w :=
          with_content
            (AppContent.setIsSubscribed (bool_decide (is_Some subscription)))
            w in
        let w :=
          with_content
            (AppContent.setCredits (default 0 (credits <$> subscription)))
            w in
        match subscription with
        | Some s =>
            if truthy (preferred_language s) then
              set_window_language (preferred_language s)
                (with_content
                   (AppContent.setCurrentLanguage (preferred_language s)) w)
            else w
        | None => w
        end
    | INSERT => w
    end in
  match e with
  | Inserted new =>
      if bool_decide (Some (user_id new) = user) then
        let w := with_content (AppContent.setIsSubscribed true) w in
        let w :=
          with_content (AppContent.setCredits (credits (snapshot new))) w in
        if truthy (preferred_language (snapshot new)) then
          set_window_language (preferred_language (snapshot new))
            (with_content
               (AppContent.setCurrentLanguage
                  (preferred_language (snapshot new))) w)
        else w
      else w
  | _ => w
  end.

(** The effect keyed on [user?.id]; it returns the channel to close. *)
Definition subscription_effect (user : option string) (online : bool)
    (w : World) : World * option nat :=
  let w := checkSubscriptionAndCredits user online w in
  let '(channel, w) :=
    subscribe {| topic := "sub-and-credits-" +:+ default "undefined" user;
                 event := None;
                 filter := if has_id user then user else None;
                 handler := sub_and_credits_handler user |} w in
  (w, Some channel).

Definition commit_AppContent (online : bool) (w : World) : World :=
  let user := AppContent.user (content w) in
  if decide (AppContent.deps (content w) = Some user) then w
  else
    let w :=
      from_option (λ c, unsubscribe c w) w (AppContent.cleanup (content w)) in
    let '(w, c) := subscription_effect user online w in
    with_content (AppContent.committed user c) w.

(** The auth state changes to [u] and the [onAuthStateChange] callback
    stores it. *)
Definition onAuthStateChange (u : option string) (online : bool) (w : World)
  : World :=
  commit_AppContent online (with_content (AppContent.setUser u)
                              (with_session u w)).

(** ** [LanguageSelector] *)

Definition handleLanguageChange (newLanguage : string)
    (online_user online_update : bool) (w : World) : World :=
  let '(user, w) := getUser online_user w in
  match user with
  | Some uid =>
      let '(error, w) :=
        from_update_eq online_update uid
          (patch_preferred_language newLanguage) w in
      match error with
      | Some e => print (console_error "Error updating language:" (Some e)) w
      | None =>
          let w := set_window_language newLanguage w in
          with_content (AppContent.setCurrentLanguage newLanguage) w
      end
  | None => w
  end.

(** ** The environment: feed deliveries, the host signal, other writers *)

Definition accepts (c : Channel) (e : ChangeEvent) : bool :=
  bool_decide (event c = None ∨ event c = Some (eventType e))
  && bool_decide (filter c = None ∨ filter c = Some (event_user e)).

(** The feed delivers [e] on the subscribed channel [id]. *)
Definition deliver (id : nat) (e : ChangeEvent) (online : bool) (w : World)
  : World :=
  match channels w !! id with
  | Some c =>
      if accepts c e then
        match handler c, e with
        | credits_handler, Updated _ new => credits_payload new w
        | credits_handler, _ => w
        | sub_and_credits_handler user, _ =>
            sub_and_credits_payload user e online w
        end
      else w
  | None => w
  end.

(** The host emits "solution success": every registered callback runs, in
    registration order, and what its promise settles to is dropped;
    [online id] gives the fate of the two requests the callback of listener
    [id] may make. *)
Definition dispatch (online : nat → bool * bool) (w : World)
    (il : nat * SolutionSuccessListener) : World :=
  (solutionSuccess_callback il.2 (online il.1).1 (online il.1).2 w).1.

Definition solutionSuccess (online : nat → bool * bool) (w : World) : World :=
  foldl (dispatch online) w (listeners w).

Inductive Action :=
| CommitApp (online_user online_select : bool)
| CommitAppContent (online : bool)
| AuthStateChange (u : option string) (online : bool)
| Deliver (id : nat) (e : ChangeEvent) (online : bool)
| SolutionSuccess (online : nat → bool * bool)
| Billing (uid : string) (r : option Row)   (* a writer outside this client *)
| LanguageChange (newLanguage : string) (online_user online_update : bool).

Definition step (w : World) (a : Action) : World :=
  match a with
  | CommitApp ou os => commit_App ou os w
  | CommitAppContent o => commit_AppContent o w
  | AuthStateChange u o => onAuthStateChange u o w
  | Deliver id e o => deliver id e o w
  | SolutionSuccess o => solutionSuccess o w
  | Billing uid r =>
      with_subscriptions (partial_alter (λ _, r) uid (subscriptions w)) w
  | LanguageChange l ou o => handleLanguageChange l ou o w
  end.

Definition run (w : World) (l : list Action) : World := foldl step w l.

(** Always online. *)
Definition up : nat → bool * bool := λ _, (true, true).

(** ** The local replica *)

(** The replica is spread over the two components: [isSubscribed] lives in
    [AppContent]; the credits, language and readiness flag that are
    initialised, debited and published to [window] live in [App]. *)
Module Replica.
Record LocalReplica :=
  { isSubscribed : bool;
    credits : Z;
    preferredLanguage : string;
    isInitialized : bool }.
End Replica.

Definition getReplica (w : World) : Replica.LocalReplica :=
  {| Replica.isSubscribed := AppContent.isSubscribed (content w);
     Replica.credits := App.credits (app w);
     Replica.preferredLanguage := App.currentLanguage (app w);
     Replica.isInitialized := App.isInitialized (app w) |}.

Definition published (c : Z) (l : string) (i : bool) : Window :=
  {| __CREDITS__ := Some c; __LANGUAGE__ := Some l;
     __IS_INITIALIZED__ := Some i |}.

(** The channel and the listener a signed-in run of
    [initializeAndSubscribe] creates. *)
Definition credits_channel (uid : string) : Channel :=
  {| topic := "credits"; event := Some UPDATE; filter := Some uid;
     handler := credits_handler |}.

(** ** Predicates and scenarios used in the statements *)

Definition row (c : Z) (l : string) : Row :=
  {| credits := c; preferred_language := l |}.

(** A table with one subscriber. *)
Definition one_row (uid : string) (c : Z) (l : string) : gmap string Row :=
  {[ uid := row c l ]}.

Definition not_initialized : Console :=
  console_warn "Attempted to decrement credits before initialization".
Definition no_subscription : Console :=
  console_error "No subscription found when trying to decrement credits" None.
Definition update_failed (e : PostgrestError) : Console :=
  console_error "Error updating credits:" (Some e).

(** [w'] differs from [w] at most in what was printed and requested. *)
Definition state_kept (w w' : World) : Prop :=
  app w' = app w ∧ content w' = content w ∧ window w' = window w
  ∧ session w' = session w ∧ subscriptions w' = subscriptions w
  ∧ channels w' = channels w ∧ listeners w' = listeners w
  ∧ next_id w' = next_id w.

Definition skips (il : nat * SolutionSuccessListener) : Prop :=
  seen_isInitialized il.2 = false.

(** Start-up with the session of [uid] already restored. *)
Definition restored (uid : string) (t : gmap string Row) : World :=
  with_session (Some uid) (boot t).

(** The world after the first commit of [App] for a restored session. *)
Definition first_commit (uid : string) (c : Z) (l : string) : World :=
  commit_App true true (restored uid (one_row uid c l)).

(** The world once [App] has committed twice for a restored session: the
    first run registered a callback that saw [false], the second one that
    saw [true]. *)
Definition settled (uid : string) (c : Z) (l : string) : World :=
  run (restored uid (one_row uid c l))
      [CommitApp true true; CommitApp true true].

(** [uid] signs in after start-up and both components commit. *)
Definition signed_in (uid : string) (t : gmap string Row) : World :=
  run (boot t)
      [AuthStateChange (Some uid) true; CommitApp true true;
       CommitApp true true].

(** A callback created by a render that saw [isInitialized = true]. *)
Definition debiting (uid : string) : SolutionSuccessListener :=
  {| seen_isInitialized := true; seen_user := uid |}.

(** A callback created by a render that saw [isInitialized = false]. *)
Definition stale (uid : string) : SolutionSuccessListener :=
  {| seen_isInitialized := false; seen_user := uid |}.

(** The Updated event taking the credits of [uid] from [c] to [c']. *)
Definition credits_changed (uid l : string) (c c' : Z) : ChangeEvent :=
  Updated {| user_id := uid; snapshot := row c l |}
          {| user_id := uid; snapshot := row c' l |}.

(** "A" starts without a row, then one with 50 credits is inserted. *)
Definition row_inserted : World :=
  step (signed_in "A" ∅) (Billing "A" (Some (row 50 "python"))).

Definition inserted_50 : ChangeEvent :=
  Inserted {| user_id := "A"; snapshot := row 50 "python" |}.

(** "A" holds 5 credits when signing in; the row then drops to 4, the
    Updated event is applied by [AppContent] (channel 0), the row drops to 3
    and the same event is applied again. *)
Definition applied_once : World :=
  deliver 0 (credits_changed "A" "java" 5 4) true
    (step (signed_in "A" (one_row "A" 5 "java"))
          (Billing "A" (Some (row 4 "java")))).

Definition applied_twice : World :=
  deliver 0 (credits_changed "A" "java" 5 4) true
    (step applied_once (Billing "A" (Some (row 3 "java")))).

(** [App] initialises with nobody signed in; "A" signs in, holding 5
    credits; the row goes to 7. *)
Definition late_sign_in : World :=
  run (boot (one_row "A" 5 "python"))
      [CommitApp true true; CommitApp true true;
       AuthStateChange (Some "A") true;
       Billing "A" (Some (row 7 "python"))].

(** "A" picks "java" in the language selector, then a debit is written
    back. *)
Definition language_picked : World :=
  run (settled "A" 5 "python")
      [AuthStateChange (Some "A") true; LanguageChange "java" true true;
       SolutionSuccess up].

(** "A", whose row says "java", signs out; a late Updated event follows. *)
Definition signed_out_late_event : World :=
  run (settled "A" 5 "java")
      [AuthStateChange (Some "A") true; AuthStateChange None true;
       Deliver 0 (credits_changed "A" "java" 5 9) true].

(** "A" signs in and settles, then the identity switches to "B" and both
    components commit again. *)
Definition switched : World :=
  run (signed_in "A" (one_row "A" 5 "java"))
      [AuthStateChange (Some "B") true; CommitApp true true].




Definition ready : Replica.LocalReplica :=
  {| Replica.isSubscribed := false; Replica.credits := 1;
     Replica.preferredLanguage := "python";
     Replica.isInitialized := true |}.

(** The feed delivers [e] on every channel ever opened that is still
    subscribed and accepts it. *)
Definition broadcast (e : ChangeEvent) (online : bool) (w : World) : World :=
  foldl (λ w id, deliver id e online w) w (seq 0%nat (next_id w)).

(** The cells [App] publishes, and the globals they are published in. *)
Definition mirrored (w : World) : Prop :=
  from_option (eq (App.credits (app w))) True (__CREDITS__ (window w))
  ∧ from_option (eq (App.isInitialized (app w))) True
      (__IS_INITIALIZED__ (window w)).

Definition nonneg_table (t : gmap string Row) : Prop :=
  ∀ u r, t !! u = Some r → 0 ≤ credits r.

Definition nonneg (w : World) : Prop :=
  0 ≤ App.credits (app w) ∧ nonneg_table (subscriptions w).

(** No callback that debits finds a row with less than one credit. *)
Fixpoint floor_kept (online : nat → bool * bool) (w : World)
    (ls : list (nat * SolutionSuccessListener)) : Prop :=
  match ls with
  | [] => True
  | il :: ls =>
      (seen_isInitialized il.2 = true →
       ∀ r, subscriptions w !! seen_user il.2 = Some r → 1 ≤ credits r)
      ∧ floor_kept online (dispatch online w il) ls
  end.

(** What the environment must grant for the floor to hold: snapshots and
    rows written by others carry non-negative credits, and no debit meets a
    row at 0. *)
Definition respects_floor (w : World) (a : Action) : Prop :=
  match a with
  | Deliver _ e _ => ∀ n, payload_new e = Some n → 0 ≤ credits (snapshot n)
  | Billing _ (Some r) => 0 ≤ credits r
  | SolutionSuccess online => floor_kept online w (listeners w)
  | _ => True
  end.

Fixpoint floor_respected (w : World) (acts : list Action) : Prop :=
  match acts with
  | [] => True
  | a :: acts => respects_floor w a ∧ floor_respected (step w a) acts
  end.

(** ** Further definitions: the effect lifecycle, the screen, the forms *)

(** A callback that will debit when the signal comes. *)
Definition debits (il : nat * SolutionSuccessListener) : Prop :=
  seen_isInitialized il.2 = true.

#[global] Instance debits_dec il : Decision (debits il).
Proof. unfold debits. apply _. Defined.

(** How far [App]'s credits effect has got: not run, run once (the render
    saw [false]), run twice (the second render saw [true]). *)
Definition effect_phase (w : World) : Prop :=
  App.cleanup (app w) = None
  ∧ match App.deps (app w) with
    | None => App.isInitialized (app w) = false ∧ listeners w = []
    | Some false =>
        App.isInitialized (app w) = true
        ∧ Forall skips (listeners w) ∧ (length (listeners w) ≤ 1)%nat
    | Some true =>
        App.isInitialized (app w) = true
        ∧ ∃ ls1 ls2, listeners w = ls1 ++ ls2 ∧ Forall skips ls1
                     ∧ (length ls1 ≤ 1)%nat ∧ (length ls2 ≤ 1)%nat
    end.

Definition update_request (r : Request) : bool :=
  match r with from_update _ _ => true | _ => false end.

(** The number of updates sent to the table so far. *)
Definition updates_sent (w : World) : nat :=
  length (base.filter (λ r, update_request r) (requests w)).

(** The channel [AppContent]'s effect subscribes for [user]. *)
Definition status_channel (user : option string) : Channel :=
  {| topic := "sub-and-credits-" +:+ default "undefined" user;
     event := None;
     filter := if has_id user then user else None;
     handler := sub_and_credits_handler user |}.

(** Channel and listener ids were all handed out by [fresh]. *)
Definition fresh_ids (w : World) : Prop :=
  (∀ id c, channels w !! id = Some c → (id < next_id w)%nat)
  ∧ Forall (λ il, (il.1 < next_id w)%nat) (listeners w).

(** The subscribed channels of [AppContent] are exactly the one its effect
    has to close, and that one is for the user of the last commit. *)
Definition status_tracked (w : World) : Prop :=
  (∀ id c u, channels w !! id = Some c →
             handler c = sub_and_credits_handler u →
             AppContent.cleanup (content w) = Some id
             ∧ AppContent.deps (content w) = Some u)
  ∧ match AppContent.deps (content w) with
    | Some u => ∃ id, AppContent.cleanup (content w) = Some id
                      ∧ channels w !! id = Some (status_channel u)
    | None => AppContent.cleanup (content w) = None
    end.

(** Readiness, once reached, is published. *)
Definition ready_published (w : World) : Prop :=
  App.cleanup (app w) = None
  ∧ (App.isInitialized (app w) = true →
     __IS_INITIALIZED__ (window w) = Some true).

(** What every reachable world satisfies about cleanups, ids and channels. *)
Definition tracked (w : World) : Prop :=
  App.cleanup (app w) = None ∧ fresh_ids w ∧ status_tracked w.

(** ** [AppContent]: what is rendered *)

Inductive Screen :=
| spinner (message : string)
| AuthForm_screen
| SubscribePage (user : string)
| SubscribedApp (credits : option Z) (currentLanguage : string).

(** The [return] cascade of [AppContent], given the [loading] and
    [subscriptionLoading] flags and the [isInitialized] prop. *)
Definition AppContent_screen (loading subscriptionLoading isInitialized : bool)
    (s : AppContent.State) : Screen :=
  let credits_undefined := bool_decide (AppContent.credits s = None) in
  if loading
     || (bool_decide (is_Some (AppContent.user s))
         && (subscriptionLoading || negb isInitialized || credits_undefined))
  then
    spinner
      (if loading then "Loading..."
       else if negb isInitialized then
         "Initializing...If you see this screen for more than 10 seconds, please quit and restart the app."
       else if credits_undefined then "Loading credits..."
       else "Checking subscription...")
  else
    match AppContent.user s with
    | None => AuthForm_screen
    | Some user =>
        if negb (AppContent.isSubscribed s) then SubscribePage user
        else SubscribedApp (AppContent.credits s) (AppContent.currentLanguage s)
    end.

(** ** [QueueCommands] *)

Module QueueCommands.
(** What a click does that can be seen from outside the component. *)
Inductive Effect :=
| showToast (title description variant : string)
| console_error (msg : string)
| triggerProcessScreenshots.

(** How a call over the IPC bridge ends: with a result object, or by
    throwing. *)
Inductive Ipc := result (success : bool) | throws.

Definition process_failed : list Effect :=
  [showToast "Error" "Failed to process screenshots" "error"].

(** The rest of both "Solve" handlers: the [try] block around
    [triggerProcessScreenshots]. *)
Definition process (ipc : Ipc) : list Effect :=
  triggerProcessScreenshots
  :: match ipc with
     | result true => []
     | result false =>
         console_error "Failed to process screenshots:" :: process_failed
     | throws => console_error "Error processing screenshots:" :: process_failed
     end.

(** [onClick] of the "Solve" entry of the bar, which is rendered when
    [screenshotCount > 0]. *)
Definition solve_onClick (credits : Z) (ipc : Ipc) : list Effect :=
  if credits <=? 0 then
    [showToast "Out of Credits"
       "You are out of credits. Please refill at https://www.interviewcoder.co/settings."
       "error"]
  else process ipc.

(** [onClick] of the "Solve" entry of the tooltip. *)
Definition tooltip_solve_onClick (screenshotCount : Z) (ipc : Ipc)
  : list Effect :=
  if screenshotCount =? 0 then [] else process ipc.

End QueueCommands.

(** ** [App]: the PKCE callback *)

Module PKCE.
Inductive Effect :=
| console_log (msg : string)
| console_error (msg : string)
| exchangeCodeForSession (code : string).

(** How [supabase.auth.exchangeCodeForSession] ends. *)
Inductive Exchange := exchanged | exchange_error | exchange_throws.

(** [handleAuthCallbackPKCE]; [data] is null or an object whose [code] may
    be missing. *)
Definition handleAuthCallbackPKCE (data : option (option string))
    (x : Exchange) : list Effect :=
  console_log "Production IPC: received code:"
  :: match data ≫= id with
     | Some code =>
         if truthy code then
           [exchangeCodeForSession code;
            match x with
            | exchanged =>
                console_log "Production PKCE: Session exchanged successfully"
            | exchange_error =>
                console_error "Error exchanging code for session:"
            | exchange_throws =>
                console_error "Production PKCE: Error in auth callback:"
            end]
         else [console_error "No code in callback data"]
     | None => [console_error "No code in callback data"]
     end.
End PKCE.

(** ** [AuthForm] *)

(** [String.prototype.includes]. *)
Fixpoint includes (needle s : string) : bool :=
  if String.prefix needle s then true
  else match s with
       | EmptyString => false
       | String _ s' => includes needle s'
       end.

Module AuthForm.
(** The value of an input field: its UTF-16 code units, which is what
    [value.length] counts. *)
Definition DOMString := list N.

Record State :=
  { isLoading : bool;
    email : DOMString;
    password : DOMString;
    error : string;
    shake : bool;
    passwordError : string;
    isSignUp : bool }.

Definition initial : State :=
  {| isLoading := false; email := []; password := []; error := "";
     shake := false; passwordError := ""; isSignUp := false |}.

Definition setIsLoading (b : bool) (s : State) : State :=
  {| isLoading := b; email := email s; password := password s;
     error := error s; shake := shake s; passwordError := passwordError s;
     isSignUp := isSignUp s |}.
Definition setEmail (v : DOMString) (s : State) : State :=
  {| isLoading := isLoading s; email := v; password := password s;
     error := error s; shake := shake s; passwordError := passwordError s;
     isSignUp := isSignUp s |}.
Definition setPassword (v : DOMString) (s : State) : State :=
  {| isLoading := isLoading s; email := email s; password := v;
     error := error s; shake := shake s; passwordError := passwordError s;
     isSignUp := isSignUp s |}.
Definition setError (e : string) (s : State) : State :=
  {| isLoading := isLoading s; email := email s; password := password s;
     error := e; shake := shake s; passwordError := passwordError s;
     isSignUp := isSignUp s |}.
Definition setShake (b : bool) (s : State) : State :=
  {| isLoading := isLoading s; email := email s; password := password s;
     error := error s; shake := b; passwordError := passwordError s;
     isSignUp := isSignUp s |}.
Definition setPasswordError (e : string) (s : State) : State :=
  {| isLoading := isLoading s; email := email s; password := password s;
     error := error s; shake := shake s; passwordError := e;
     isSignUp := isSignUp s |}.
Definition setIsSignUp (b : bool) (s : State) : State :=
  {| isLoading := isLoading s; email := email s; password := password s;
     error := error s; shake := shake s; passwordError := passwordError s;
     isSignUp := b |}.

(** The callbacks given to [setTimeout]. *)
Inductive Timer := reset_shake | leave_sign_up.

Definition fire (t : Timer) (s : State) : State :=
  match t with
  | reset_shake => setShake false s
  | leave_sign_up => setIsSignUp false s
  end.

Inductive Effect :=
| preventDefault
| signUp (email password : DOMString) (emailRedirectTo : string)
| signInWithPassword (email password : DOMString)
| setSession
| signInWithOAuth (redirectTo : string)
| console_log (msg : string)
| console_error (msg : string)
| setTimeout (t : Timer) (ms : nat).

(** How [signUp], [signInWithPassword] and [signInWithOAuth] end: by
    throwing, or with [{ data, error }], of which the handlers read
    [error?.message] and whether [data.session] is there. *)
Inductive AuthResult :=
| throws
| returns (error : option string) (session : bool).

(** A handler reads the state [r] of the render it was created in and
    queues writes; [s] is the state with the writes queued so far. *)
Definition validatePassword (r : State) (value : DOMString) (s : State)
  : bool * State :=
  if isSignUp r && (length value <? 6)%nat then
    (false, setPasswordError "Password must be at least 6 characters" s)
  else (true, setPasswordError "" s).

Definition handlePasswordChange (value : DOMString) (r : State) : State :=
  let s := setPassword value r in
  if negb (bool_decide (value = [])) && isSignUp r
  then (validatePassword r value s).2
  else setPasswordError "" s.

Definition toggleMode (r : State) : State :=
  let s := setIsSignUp (negb (isSignUp r)) r in
  let s := setError "" s in
  let s := setPasswordError "" s in
  let s := setEmail [] s in
  setPassword [] s.

(** [disabled] of the submit button. *)
Definition submit_disabled (s : State) : bool :=
  isLoading s || bool_decide (email s = []) || bool_decide (password s = [])
  || negb (bool_decide (passwordError s = "")).

(** The [catch] block of [handleEmailAuth], followed by its [finally]. *)
Definition caught (r : State) (s : State) : State * list Effect :=
  (setIsLoading false
     (setShake true (setError "Something went wrong, try again later" s)),
   [console_error ("Error " +:+ (if isSignUp r then "signing up"
                                 else "signing in") +:+ ":");
    setTimeout reset_shake 500]).

Definition sign_in_error (message : string) : string :=
  if includes "Invalid login credentials" message then
    "Invalid email or password"
  else if includes "Email not confirmed" message then
    "Please verify your email address"
  else message.

(** [handleEmailAuth]; [origin] is [window.location.origin], [auth] the
    fate of the sign-up or sign-in call and [session_set] whether
    [setSession], if reached, returns rather than throws. *)
Definition handleEmailAuth (origin : string) (auth : AuthResult)
    (session_set : bool) (r : State) : State * list Effect :=
  let '(valid, s) :=
    if isSignUp r then validatePassword r (password r) r else (true, r) in
  if isSignUp r && negb valid then
    (setShake true s, [preventDefault; setTimeout reset_shake 500])
  else
    let s := setError "" (setIsLoading true s) in
    let after (call : Effect) (k : State * list Effect) :=
      (k.1, preventDefault :: call :: k.2) in
    if isSignUp r then
      after (signUp (email r) (password r) (origin +:+ "/auth/callback"))
        match auth with
        | throws | returns (Some _) _ => caught r s
        | returns None true =>
            if session_set then (setIsLoading false s, [setSession])
            else let k := caught r s in (k.1, setSession :: k.2)
        | returns None false =>
            (setIsLoading false
               (setError "Please check your email to confirm your account" s),
             [setTimeout leave_sign_up 2000])
        end
    else
      after (signInWithPassword (email r) (password r))
        match auth with
        | throws => caught r s
        | returns (Some message) _ =>
            (setIsLoading false
               (setShake true (setError (sign_in_error message) s)),
             [setTimeout reset_shake 500])
        | returns None true =>
            if session_set then (setIsLoading false s, [setSession])
            else let k := caught r s in (k.1, setSession :: k.2)
        | returns None false => (setIsLoading false s, [])
        end.

(** [handleGoogleAuth]; [dev] is [import.meta.env.DEV]. *)
Definition handleGoogleAuth (dev : bool) (auth : AuthResult) (r : State)
  : State * list Effect :=
  let s := setError "" (setIsLoading true r) in
  let call :=
    [console_log "isdev";
     signInWithOAuth (if dev then "http://localhost:54321/callback"
                      else "interview-coder://callback")] in
  match auth with
  | returns None _ => (s, call)
  | throws | returns (Some _) _ =>
      (setIsLoading false
         (setShake true
            (setError "Something went wrong with Google authentication" s)),
       call ++ [console_error "Error with Google auth:";
                setTimeout reset_shake 500])
  end.

(** What can happen to the form: typing, the three buttons, a timer going
    off. *)
Inductive Event :=
| type_email (value : DOMString)
| type_password (value : DOMString)
| click_toggle
| submit (origin : string) (auth : AuthResult) (session_set : bool)
| click_google (dev : bool) (auth : AuthResult)
| timeout (t : Timer).

Definition step (s : State) (ev : Event) : State :=
  match ev with
  | type_email value => setEmail value s
  | type_password value => handlePasswordChange value s
  | click_toggle => toggleMode s
  | submit origin auth session_set =>
      (handleEmailAuth origin auth session_set s).1
  | click_google dev auth => (handleGoogleAuth dev auth s).1
  | timeout t => fire t s
  end.

Definition run (evs : list Event) : State := foldl step initial evs.
End AuthForm.

(** * Initialisation *)

Section Initialization.
Variables (isInitialized online_user online_select : bool) (w : World).

Let w' := (initializeAndSubscribe isInitialized online_user online_select w).1.

(** C10. With nobody signed in, [initializeAndSubscribe] publishes one
    credit, "python" and readiness; the only request is [getUser]: the
    table is neither read nor written, no channel is subscribed and no
    listener registered. *)
Theorem initialize_signed_out :
  session w = None →
  App.credits (app w') = 1
  ∧ App.currentLanguage (app w') = "python"
  ∧ App.isInitialized (app w') = true
  ∧ window w' = published 1 "python" true
  ∧ requests w' = requests w ++ [auth_getUser]
  ∧ subscriptions w' = subscriptions w
  ∧ channels w' = channels w
  ∧ listeners w' = listeners w.
Proof.
  intros Hs. subst w'. unfold initializeAndSubscribe, getUser.
  rewrite Hs. destruct online_user; cbn; auto 10.
Qed.

(** What a signed-in run does once the initial select has answered with
    [subscription] (null on absence and on failure alike). *)
Lemma initialize_signed_in uid subscription :
  session w = Some uid → online_user = true →
  data (single online_select uid (subscriptions w)) = subscription →
  let c := default 1 (credits <$> subscription) in
  let l := default "python" (preferred_language <$> subscription) in
  App.credits (app w') = c
  ∧ App.currentLanguage (app w') = l
  ∧ App.isInitialized (app w') = true
  ∧ window w' = published c l true
  ∧ content w' = content w
  ∧ subscriptions w' = subscriptions w
  ∧ requests w' =
      requests w ++ [auth_getUser; from_select (Some uid);
                     channel_subscribe (next_id w) (credits_channel uid)]
  ∧ channels w' = <[next_id w := credits_channel uid]> (channels w)
  ∧ listeners w' =
      listeners w ++ [(S (next_id w),
                       {| seen_isInitialized := isInitialized;
                          seen_user := uid |})].
Proof.
  intros Hs -> <-. subst w'. unfold initializeAndSubscribe, getUser.
  rewrite Hs. cbn. rewrite <- !(assoc_L (++)). cbn. auto 10.
Qed.
End Initialization.

Lemma single_absent uid (t : gmap string Row) :
  t !! uid = None → data (single true uid t) = None.
Proof. intros Hr. unfold single. by rewrite Hr. Qed.

Lemma single_offline uid (t : gmap string Row) :
  data (single false uid t) = None.
Proof. reflexivity. Qed.

Lemma checkSubscriptionAndCredits_absent uid w :
  uid ≠ "" →
  subscriptions w !! uid = None →
  let w' := checkSubscriptionAndCredits (Some uid) true w in
  AppContent.isSubscribed (content w') = false
  ∧ AppContent.credits (content w') = Some 0
  ∧ app w' = app w ∧ window w' = window w
  ∧ session w' = session w ∧ subscriptions w' = subscriptions w
  ∧ next_id w' = next_id w
  ∧ requests w' = requests w ++ [from_select (Some uid)].
Proof.
  intros Hid Hr. unfold checkSubscriptionAndCredits, select_maybeSingle,
    maybeSingle, has_id, truthy. cbn.
  rewrite bool_decide_eq_true_2 by done. cbn. rewrite Hr. cbn. auto 10.
Qed.

(** C5. When the signed-in user (ids are not empty) has no row,
    initialisation ends with the
    replica [{isSubscribed: false, credits: 1, preferredLanguage: "python",
    isInitialized: true}], whichever of the two components reads first; the
    requests made are reads and one channel subscription, never an update,
    and the table is left as it was. *)
Theorem absent_record_defaults uid isInitialized w :
  uid ≠ "" →
  session w = Some uid →
  subscriptions w !! uid = None →
  let w1 :=
    checkSubscriptionAndCredits (Some uid) true
      (initializeAndSubscribe isInitialized true true w).1 in
  let w2 :=
    (initializeAndSubscribe isInitialized true true
       (checkSubscriptionAndCredits (Some uid) true w)).1 in
  (getReplica w1 = ready
   ∧ window w1 = published 1 "python" true
   ∧ subscriptions w1 = subscriptions w
   ∧ requests w1 =
       requests w ++ [auth_getUser; from_select (Some uid);
                      channel_subscribe (next_id w) (credits_channel uid);
                      from_select (Some uid)])
  ∧ (getReplica w2 = ready
     ∧ window w2 = published 1 "python" true
     ∧ subscriptions w2 = subscriptions w
     ∧ requests w2 =
         requests w ++ [from_select (Some uid); auth_getUser;
                        from_select (Some uid);
                        channel_subscribe (next_id w) (credits_channel uid)]).
Proof.
  intros Hid Hs Hr w1 w2. split.
  - pose proof (initialize_signed_in isInitialized true true w uid None Hs
                  eq_refl (single_absent _ _ Hr))
      as (Hc & Hl & Hi & Hw & Hcont & Ht & Hq & _).
    set (v := (initializeAndSubscribe isInitialized true true w).1) in *.
    destruct (checkSubscriptionAndCredits_absent uid v Hid)
      as (Hsub & _ & Ha & Hwin & _ & Ht' & _ & Hq'); [by rewrite Ht|].
    subst w1. unfold getReplica. rewrite Hsub, Ha, Hc, Hl, Hi, Hwin, Ht', Hq'.
    rewrite Hq, <- !(assoc_L (++)). by cbn.
  - destruct (checkSubscriptionAndCredits_absent uid w Hid Hr)
      as (Hsub & _ & Ha & Hwin & Hses & Ht' & Hn & Hq').
    set (v := checkSubscriptionAndCredits (Some uid) true w) in *.
    assert (Hsv : session v = Some uid) by (by rewrite Hses).
    assert (Hrv : subscriptions v !! uid = None) by (by rewrite Ht').
    pose proof (initialize_signed_in isInitialized true true v uid None Hsv
                  eq_refl (single_absent _ _ Hrv))
      as (Hc & Hl & Hi & Hw & Hcont & Ht & Hq & _).
    subst w2. unfold getReplica. rewrite Hcont, Hsub, Hc, Hl, Hi, Hw, Ht.
    rewrite Hq, Hq', Hn, <- !(assoc_L (++)). by cbn.
Qed.

Lemma absent_record_defaults_witness :
  getReplica
    (checkSubscriptionAndCredits (Some "U") true
       (initializeAndSubscribe false true true (restored "U" ∅)).1)
  = ready.
Proof.
  exact (proj1 (proj1 (absent_record_defaults "U" false (restored "U" ∅)
                         ltac:(discriminate) eq_refl (lookup_empty _)))).
Defined.

Lemma initialize_signed_out_witness :
  App.credits (app (initializeAndSubscribe false true true (boot ∅)).1) = 1.
Proof.
  exact (proj1 (initialize_signed_out false true true (boot ∅) eq_refl)).
Defined.

(** C2 (as stated, refuted).  User "A" owns a row with 5 credits and language
    "java"; the initial select fails in transit.  The run still marks the
    replica initialised and publishes the defaults. *)
Lemma read_failure_defaulted :
  error (single false "A" (subscriptions (restored "A" (one_row "A" 5 "java"))))
  = Some FetchError
  ∧ getReplica
      (initializeAndSubscribe false true false
         (restored "A" (one_row "A" 5 "java"))).1
    = ready
  ∧ window
      (initializeAndSubscribe false true false
         (restored "A" (one_row "A" 5 "java"))).1
    = published 1 "python" true.
Proof. vm_compute. auto. Qed.

(** C2 (amended).  [initializeAndSubscribe] reads only [data] of the initial
    select, so a failed read is treated like an absent row: the defaults
    (1 credit, "python") are written and published, [isInitialized] becomes
    true, and the channel and the listener are set up as usual. *)
Theorem initialize_read_failure uid isInitialized w :
  session w = Some uid →
  let w' := (initializeAndSubscribe isInitialized true false w).1 in
  App.credits (app w') = 1
  ∧ App.currentLanguage (app w') = "python"
  ∧ App.isInitialized (app w') = true
  ∧ window w' = published 1 "python" true
  ∧ channels w' = <[next_id w := credits_channel uid]> (channels w)
  ∧ listeners w' =
      listeners w ++ [(S (next_id w),
                       {| seen_isInitialized := isInitialized;
                          seen_user := uid |})].
Proof.
  intros Hs.
  pose proof (initialize_signed_in isInitialized true false w uid None Hs
                eq_refl (single_offline _ _))
    as (Hc & Hl & Hi & Hw & _ & _ & _ & Hch & Hls).
  auto 10.
Qed.

Lemma initialize_read_failure_witness :
  App.isInitialized
    (app (initializeAndSubscribe false true false
            (restored "A" (one_row "A" 5 "java"))).1)
  = true.
Proof.
  exact (proj1 (proj2 (proj2
    (initialize_read_failure "A" false
       (restored "A" (one_row "A" 5 "java")) eq_refl)))).
Defined.

(** * The debit *)

Lemma state_kept_refl w : state_kept w w.
Proof. by repeat split. Qed.

Lemma state_kept_trans w1 w2 w3 :
  state_kept w1 w2 → state_kept w2 w3 → state_kept w1 w3.
Proof.
  unfold state_kept. intros (?&?&?&?&?&?&?&?) (?&?&?&?&?&?&?&?).
  repeat split; congruence.
Qed.

Section Callback.
Variables (l : SolutionSuccessListener) (w : World).
Let uid := seen_user l.

Lemma callback_skips os ou :
  seen_isInitialized l = false →
  solutionSuccess_callback l os ou w = (print not_initialized w, resolved).
Proof. intros H. unfold solutionSuccess_callback. by rewrite H. Qed.

Lemma callback_no_data os ou :
  seen_isInitialized l = true →
  data (single os uid (subscriptions w)) = None →
  solutionSuccess_callback l os ou w
  = (print no_subscription (request (from_select (Some uid)) w), resolved).
Proof.
  intros H Hd. unfold solutionSuccess_callback, select_single.
  rewrite H. cbn. fold uid. by rewrite Hd.
Qed.

Lemma callback_update_offline r :
  seen_isInitialized l = true →
  subscriptions w !! uid = Some r →
  let p := patch_credits (credits r - 1) in
  ∃ w',
    solutionSuccess_callback l true false w
    = (print (update_failed FetchError) w', resolved)
    ∧ state_kept w w' ∧ console w' = console w
    ∧ requests w' =
        requests w ++ [from_select (Some uid); from_update uid p].
Proof.
  intros H Hr p. unfold solutionSuccess_callback, select_single, single.
  rewrite H. cbn. fold uid. rewrite Hr. cbn.
  eexists. split; [reflexivity|]. cbn.
  split; [by repeat split|]. by rewrite <- (assoc_L (++)).
Qed.

End Callback.

Lemma dispatch_skips online ls :
  Forall skips ls → ∀ w,
  let w' := foldl (dispatch online) w ls in
  state_kept w w' ∧ requests w' = requests w
  ∧ console w' = console w ++ replicate (length ls) not_initialized.
Proof.
  induction 1 as [|il ls Hil _ IH]; intros w; cbn.
  - split; [apply state_kept_refl|]. by rewrite (right_id_L [] (++)).
  - unfold dispatch at 2 4 6. rewrite callback_skips by exact Hil. cbn.
    destruct (IH (print not_initialized w)) as (Hk & Hq & Hc).
    split; [|split].
    + eapply state_kept_trans; [|exact Hk]. by repeat split.
    + by rewrite Hq.
    + rewrite Hc. cbn. by rewrite <- (assoc_L (++)).
Qed.

(** C3. When every registered callback was created by a render in which
    [isInitialized] was false, the "solution success" signal changes no
    state cell, no global, no row, sends nothing to the backend and leaves
    the set of listeners as it is: each callback prints the warning and
    returns. *)
Theorem debit_skipped_before_initialization online w :
  Forall skips (listeners w) →
  let w' := solutionSuccess online w in
  getReplica w' = getReplica w
  ∧ state_kept w w'
  ∧ requests w' = requests w
  ∧ console w' =
      console w ++ replicate (length (listeners w)) not_initialized.
Proof.
  intros H w'. destruct (dispatch_skips online _ H w) as (Hk & Hq & Hc).
  change (foldl (dispatch online) w (listeners w)) with w' in *.
  split; [|done]. unfold getReplica.
  destruct Hk as (Ha & Hcont & _). by rewrite Ha, Hcont.
Qed.

Lemma debit_skipped_before_initialization_witness :
  listeners (first_commit "A" 5 "java") = [(1%nat, stale "A")]
  ∧ requests (solutionSuccess up (first_commit "A" 5 "java"))
    = requests (first_commit "A" 5 "java")
  ∧ console (solutionSuccess up (first_commit "A" 5 "java"))
    = [not_initialized].
Proof.
  set (w := first_commit "A" 5 "java").
  assert (Hl : listeners w = [(1%nat, stale "A")])
    by (vm_compute; reflexivity).
  assert (H : Forall skips (listeners w))
    by (rewrite Hl; repeat constructor).
  destruct (debit_skipped_before_initialization up w H) as (_ & _ & Hq & Hc).
  rewrite Hl in Hc. split; [exact Hl|]. split; [exact Hq|].
  rewrite Hc. vm_compute. reflexivity.
Defined.


(** Once the effect has run twice for a restored session, with [getUser]
    answering both times, the callbacks registered are a stale one and a
    debiting one. *)
Lemma settled_listeners uid t os os' :
  listeners (run (restored uid t) [CommitApp true os; CommitApp true os'])
  = [(1%nat, stale uid); (3%nat, debiting uid)].
Proof. reflexivity. Qed.



(** C7 (as stated, refuted).  The callback's promise is all its caller gets.
    With a row of 5 credits, a failed update and a failed select both settle
    it exactly as the successful debit does: resolved with [undefined]. *)
Lemma debit_failure_not_reported :
  error (update_select_single false "A" (patch_credits 4)
           (subscriptions (settled "A" 5 "java"))).2 = Some FetchError
  ∧ (solutionSuccess_callback (debiting "A") true false
       (settled "A" 5 "java")).2 = resolved
  ∧ (solutionSuccess_callback (debiting "A") false true
       (settled "A" 5 "java")).2 = resolved
  ∧ (solutionSuccess_callback (debiting "A") true true
       (settled "A" 5 "java")).2 = resolved.
Proof. vm_compute. auto. Qed.

(** C7 (amended).  When the select yields no data (failure or no row) or
    the update fails in transit, the callback prints one [console.error]
    line and returns: its promise resolves, so the caller is told nothing;
    no state cell, global, row or listener changes; and each request was
    sent once, with nothing sent after the failed one. *)
Theorem debit_failure_logged l os ou w :
  seen_isInitialized l = true →
  data (single os (seen_user l) (subscriptions w)) = None
  ∨ (os = true ∧ ou = false) →
  let uid := seen_user l in
  let w' := (solutionSuccess_callback l os ou w).1 in
  (solutionSuccess_callback l os ou w).2 = resolved
  ∧ state_kept w w'
  ∧ getReplica w' = getReplica w
  ∧ (console w' = console w ++ [no_subscription]
     ∧ requests w' = requests w ++ [from_select (Some uid)]
     ∨ ∃ r, subscriptions w !! uid = Some r
            ∧ console w' = console w ++ [update_failed FetchError]
            ∧ requests w' =
                requests w
                ++ [from_select (Some uid);
                    from_update uid (patch_credits (credits r - 1))]).
Proof.
  intros Hseen Hfail uid w'.
  assert (Hnone : data (single os uid (subscriptions w)) = None →
            (solutionSuccess_callback l os ou w).2 = resolved
            ∧ state_kept w w' ∧ getReplica w' = getReplica w
            ∧ console w' = console w ++ [no_subscription]
            ∧ requests w' = requests w ++ [from_select (Some uid)]).
  { intros Hd. subst w'. rewrite callback_no_data by done. cbn.
    repeat split; done. }
  destruct Hfail as [Hd | [-> ->]].
  { destruct (Hnone Hd) as (?&?&?&?&?). auto 10. }
  destruct (subscriptions w !! uid) as [r|] eqn:Hr.
  - destruct (callback_update_offline l w r Hseen Hr) as (v & Hv & Hk & Hc & Hq).
    subst w'. rewrite Hv. cbn.
    assert (Hk' : state_kept w (print (update_failed FetchError) v)).
    { eapply state_kept_trans; [exact Hk|]. by repeat split. }
    repeat split; try apply Hk'.
    + unfold getReplica. destruct Hk' as (-> & -> & _). done.
    + right. exists r. rewrite Hc, Hq. done.
  - destruct Hnone as (?&?&?&?&?); [by apply single_absent|]. auto 10.
Qed.

Lemma debit_failure_logged_witness :
  (solutionSuccess_callback (debiting "A") true false
     (settled "A" 5 "java")).2 = resolved
  ∧ getReplica (solutionSuccess_callback (debiting "A") true false
                  (settled "A" 5 "java")).1
    = getReplica (settled "A" 5 "java").
Proof.
  destruct (debit_failure_logged (debiting "A") true false
              (settled "A" 5 "java") eq_refl
              (or_intror (conj eq_refl eq_refl))) as (H1 & _ & H3 & _).
  exact (conj H1 H3).
Defined.

(** * Change events *)

(** C8 (as stated, refuted).  First: user "A" starts without a row, then a
    row with 50 credits is inserted; the Inserted event reaches
    [AppContent] only, so the replica's credits, and [window.__CREDITS__],
    stay at 1.  Second: an Updated event with 4 new credits is applied by
    [AppContent] twice, the row having dropped to 3 in between; the second
    application changes the state, to a value that is not the event's. *)
Lemma event_not_a_set_operation :
  (payload_new inserted_50
   = Some {| user_id := "A"; snapshot := row 50 "python" |}
   ∧ Replica.credits (getReplica (broadcast inserted_50 true row_inserted))
     = 1
   ∧ __CREDITS__ (window (broadcast inserted_50 true row_inserted)) = Some 1
   ∧ AppContent.credits (content (broadcast inserted_50 true row_inserted))
     = Some 50)
  ∧ (AppContent.credits (content applied_once) = Some 4
     ∧ AppContent.credits (content applied_twice) = Some 3
     ∧ content applied_twice ≠ content applied_once).
Proof. vm_compute. repeat split; congruence. Qed.

Lemma updateCredits_twice n w :
  updateCredits n (updateCredits n w) = updateCredits n w.
Proof. reflexivity. Qed.

(** C8 (amended).  What applying an accepted event does depends on the
    channel.  On [App]'s "credits" channel, which takes Updated events only,
    it sets the credits and [window.__CREDITS__] to the event's new credits,
    and applying it again changes nothing.  On [AppContent]'s channel an
    Inserted event for the current user sets [isSubscribed] and that
    component's credits from the event, again idempotently, and any other
    Inserted event is ignored; an Updated or Deleted event makes the handler
    select the row anew and set [isSubscribed] and its credits from what the
    select returns, not from the event, leaving [App]'s cells alone. *)
Theorem event_application id c e online w :
  channels w !! id = Some c →
  accepts c e = true →
  let w' := deliver id e online w in
  match handler c, e with
  | credits_handler, Updated _ new =>
      App.credits (app w') = credits (snapshot new)
      ∧ __CREDITS__ (window w') = Some (credits (snapshot new))
      ∧ deliver id e online w' = w'
  | credits_handler, _ => w' = w
  | sub_and_credits_handler user, Inserted new =>
      if bool_decide (Some (user_id new) = user) then
        AppContent.isSubscribed (content w') = true
        ∧ AppContent.credits (content w') = Some (credits (snapshot new))
        ∧ app w' = app w
        ∧ deliver id e online w' = w'
      else w' = w
  | sub_and_credits_handler user, _ =>
      let subscription := data (maybeSingle online user (subscriptions w)) in
      AppContent.isSubscribed (content w')
      = bool_decide (is_Some subscription)
      ∧ AppContent.credits (content w')
        = Some (default 0 (credits <$> subscription))
      ∧ app w' = app w
  end.
Proof.
  intros Hc Ha w'. subst w'. unfold deliver. rewrite Hc, Ha.
  destruct (handler c) as [|user] eqn:Hh.
  - destruct e as [new|old new|old]; try done.
    unfold credits_payload. repeat split.
    change (channels (updateCredits (credits (snapshot new)) w))
      with (channels w).
    by rewrite Hc, Ha, Hh.
  - destruct e as [new|old new|old].
    + unfold sub_and_credits_payload. cbn [eventType].
      destruct (bool_decide (Some (user_id new) = user)) eqn:Hb; [|done].
      destruct (truthy (preferred_language (snapshot new))) eqn:Ht;
        (repeat split; cbn; rewrite Hc, Ha, Hh, Hb; reflexivity).
    + unfold sub_and_credits_payload, select_maybeSingle. cbn.
      destruct (data (maybeSingle online user (subscriptions w)))
        as [s|]; [destruct (truthy (preferred_language s))|]; done.
    + unfold sub_and_credits_payload, select_maybeSingle. cbn.
      destruct (data (maybeSingle online user (subscriptions w)))
        as [s|]; [destruct (truthy (preferred_language s))|]; done.
Qed.

Lemma event_application_witness :
  App.credits
    (app (deliver 0 (credits_changed "A" "java" 5 9) true
            (settled "A" 5 "java"))) = 9
  ∧ __CREDITS__
      (window (deliver 0 (credits_changed "A" "java" 5 9) true
                 (settled "A" 5 "java"))) = Some 9
  ∧ deliver 0 (credits_changed "A" "java" 5 9) true
      (deliver 0 (credits_changed "A" "java" 5 9) true
         (settled "A" 5 "java"))
    = deliver 0 (credits_changed "A" "java" 5 9) true (settled "A" 5 "java").
Proof.
  assert (Hc : channels (settled "A" 5 "java") !! 0%nat
               = Some (credits_channel "A"))
    by (vm_compute; reflexivity).
  exact (event_application 0 (credits_channel "A")
           (credits_changed "A" "java" 5 9) true (settled "A" 5 "java")
           Hc eq_refl).
Defined.

(** * Publication to [window] *)

(** C9 (as stated, refuted).  First: [App] initialises with nobody signed in
    and publishes 1 credit; "A" signs in, [AppContent] reads 5 credits, the
    row goes to 7 and the Updated event arrives: [AppContent]'s credits
    change from 5 to 7 and [window.__CREDITS__] still holds 1.  Second: with
    "A" signed in from the start, the user picks "java" in the language
    selector and then a debit is written back: [App] holds "python" and
    [window.__LANGUAGE__] holds "java".  Third: "A", whose row says "java",
    signs out, which resets [AppContent]'s language to "python" without a
    write to [window], and a late Updated event is then applied by [App]:
    [AppContent] holds "python" and [window.__LANGUAGE__] holds "java". *)
Lemma store_change_not_published :
  (AppContent.credits (content late_sign_in) = Some 5
   ∧ AppContent.credits
       (content (broadcast (credits_changed "A" "python" 5 7) true
                   late_sign_in)) = Some 7
   ∧ __CREDITS__
       (window (broadcast (credits_changed "A" "python" 5 7) true
                  late_sign_in)) = Some 1)
  ∧ (App.credits (app language_picked) = 4
     ∧ __CREDITS__ (window language_picked) = Some 4
     ∧ App.currentLanguage (app language_picked) = "python"
     ∧ AppContent.currentLanguage (content language_picked) = "java"
     ∧ __LANGUAGE__ (window language_picked) = Some "java")
  ∧ (App.credits (app signed_out_late_event) = 9
     ∧ __CREDITS__ (window signed_out_late_event) = Some 9
     ∧ AppContent.currentLanguage (content signed_out_late_event) = "python"
     ∧ __LANGUAGE__ (window signed_out_late_event) = Some "java").
Proof. vm_compute. auto 15. Qed.

(** ** Invariants of every run *)

Lemma run_invariant (P : World → Prop) w :
  P w → (∀ w a, P w → P (step w a)) → ∀ acts, P (run w acts).
Proof.
  intros H0 Hstep acts. revert w H0.
  induction acts as [|a acts IH]; intros w H0; [done|].
  apply IH, Hstep, H0.
Qed.

Lemma foldl_invariant {A} (P : World → Prop) (f : World → A → World) ls :
  (∀ w a, P w → P (f w a)) → ∀ w, P w → P (foldl f w ls).
Proof.
  intros Hf. induction ls as [|a ls IH]; intros w Hw; [done|].
  apply IH, Hf, Hw.
Qed.

Ltac open_world w :=
  destruct w as [[? ? ? ? ?] [? ? ? ? ? ?] [? ? ?] ? ? ? ? ? ? ?].

Ltac unfold_client :=
  unfold getUser, select_single, select_maybeSingle, from_update_eq,
    from_update_select_single, subscribe, unsubscribe, onSolutionSuccess,
    removeSolutionSuccess, fresh, single, maybeSingle, update,
    update_select_single in *.

Ltac unfold_components :=
  unfold commit_App, credits_effect, initializeAndSubscribe, cleanup,
    onAuthStateChange, commit_AppContent, subscription_effect,
    checkSubscriptionAndCredits, handleLanguageChange, deliver,
    credits_payload, sub_and_credits_payload, solutionSuccess_callback in *.

(** Case analysis on everything an operation branches on. *)
Ltac branches :=
  repeat first
    [ progress cbn in *
    | case_decide
    | match goal with
      | |- context [from_option _ _ ?x] => is_var x; destruct x
      | |- context [?x ≫= _] => is_var x; destruct x
      | |- context [match ?x with _ => _ end] => is_var x; destruct x
      | |- context [match ?f ?x with _ => _ end] => is_var x; destruct x
      | |- context [negb (?f ?x)] => is_var x; destruct x
      | |- context [match ?m !! ?k with _ => _ end] =>
          destruct (m !! k) eqn:?
      | |- context [is_Some (?m !! ?k)] => destruct (m !! k) eqn:?
      | |- context [truthy ?s] => destruct (truthy s) eqn:?
      | |- context [bool_decide ?P] => destruct (bool_decide P) eqn:?
      | |- context [accepts ?c ?e] => destruct (accepts c e) eqn:?
      end ].

Lemma callback_mirrored l os ou w :
  mirrored w → mirrored (solutionSuccess_callback l os ou w).1.
Proof.
  unfold mirrored. open_world w. unfold_components. unfold_client.
  branches; intuition.
Qed.

Lemma step_mirrored w a : mirrored w → mirrored (step w a).
Proof.
  destruct a; cbn [step].
  5: { apply foldl_invariant. intros. by apply callback_mirrored. }
  all: unfold mirrored; open_world w; unfold_components; unfold_client;
    branches; intuition.
Qed.

(** C9 (amended).  Each of [App]'s helpers writes the same value to its
    state cell and to the global, and since [App]'s credits and readiness
    are written by no one else, in every world reachable from start-up
    [window.__CREDITS__] and [window.__IS_INITIALIZED__], once written,
    equal [App]'s cells.  [AppContent]'s own credits are never published:
    its setter leaves [window] alone.  (Nothing of the kind holds for the
    language, which both components write.) *)
Theorem published_by_helpers :
  (∀ n w, App.credits (app (updateCredits n w)) = n
          ∧ __CREDITS__ (window (updateCredits n w)) = Some n)
  ∧ (∀ l w, App.currentLanguage (app (updateLanguage l w)) = l
            ∧ __LANGUAGE__ (window (updateLanguage l w)) = Some l)
  ∧ (∀ w, App.isInitialized (app (markInitialized w)) = true
          ∧ __IS_INITIALIZED__ (window (markInitialized w)) = Some true)
  ∧ (∀ t acts, mirrored (run (boot t) acts))
  ∧ (∀ c w, window (with_content (AppContent.setCredits c) w) = window w).
Proof.
  split_and!; try done.
  intros t acts. apply run_invariant; [by split|]. apply step_mirrored.
Qed.

(** * The floor of the credits *)

(** C1 (as stated, refuted).  "A" holds a row with 0 credits and [App] has
    settled.  One "solution success" signal requests an update to -1, the
    table takes it, and -1 is stored and published. *)
Lemma debit_at_zero_goes_negative :
  credits <$> subscriptions (settled "A" 0 "python") !! "A" = Some 0
  ∧ App.credits (app (settled "A" 0 "python")) = 0
  ∧ requests (solutionSuccess up (settled "A" 0 "python")) =
      requests (settled "A" 0 "python")
      ++ [from_select (Some "A"); from_update "A" (patch_credits (-1))]
  ∧ Replica.credits (getReplica (solutionSuccess up (settled "A" 0 "python")))
    = -1
  ∧ __CREDITS__ (window (solutionSuccess up (settled "A" 0 "python")))
    = Some (-1)
  ∧ Replica.credits (getReplica (solutionSuccess up (settled "A" 0 "python")))
    < 0.
Proof. vm_compute. auto 10. Qed.

Lemma nonneg_table_insert t u r :
  nonneg_table t → 0 ≤ credits r → nonneg_table (<[u := r]> t).
Proof.
  intros Ht Hr v s. rewrite lookup_insert. case_decide; [|apply Ht].
  by intros [= <-].
Qed.

Lemma nonneg_table_alter t u o :
  nonneg_table t → from_option (λ r, 0 ≤ credits r) True o →
  nonneg_table (partial_alter (λ _, o) u t).
Proof.
  intros Ht Ho v s. destruct (decide (u = v)) as [->|Hne].
  - rewrite lookup_partial_alter_eq. intros ->. exact Ho.
  - rewrite lookup_partial_alter_ne by done. apply Ht.
Qed.

Lemma callback_nonneg l os ou w :
  nonneg w →
  (seen_isInitialized l = true →
   ∀ r, subscriptions w !! seen_user l = Some r → 1 ≤ credits r) →
  nonneg (solutionSuccess_callback l os ou w).1.
Proof.
  unfold nonneg. intros [Hc Ht] Hfloor. open_world w.
  unfold_components. unfold_client.
  destruct l as [[] uid]; cbn in *; [|done].
  destruct os; cbn; [|done].
  destruct (subscriptions0 !! uid) as [r|] eqn:Hr; cbn; [|done].
  specialize (Hfloor eq_refl r eq_refl).
  destruct ou; cbn; [|done]. rewrite ?Hr. cbn.
  split; [lia|]. apply nonneg_table_insert; [done|]. cbn. lia.
Qed.

Lemma dispatch_nonneg online ls :
  ∀ w, nonneg w → floor_kept online w ls →
       nonneg (foldl (dispatch online) w ls).
Proof.
  induction ls as [|il ls IH]; intros w Hw Hf; [done|].
  destruct Hf as [Hil Hf]. cbn [foldl]. apply IH; [|done].
  by apply callback_nonneg.
Qed.

Lemma step_nonneg w a : nonneg w → respects_floor w a → nonneg (step w a).
Proof.
  destruct a as [ou os|o|u o|id e o|online|uid r|nl ou o]; cbn [step].
  5: { intros Hw Hf. by apply dispatch_nonneg. }
  5: { intros [Hc Ht] Hr. split; [done|]. cbn.
       apply nonneg_table_alter; [done|]. by destruct r. }
  all: unfold nonneg; intros [Hc Ht] Hr; open_world w; unfold_components;
    unfold_client; branches; split; try done; try lia.
  all: try (by eapply Ht); try (by apply Hr).
  apply nonneg_table_insert; [done|]. cbn. by eapply Ht.
Qed.

(** C1 (amended).  Starting from a table whose rows carry non-negative
    credits, and as long as event snapshots and rows written by others do
    so too and no debiting callback meets a row with 0 credits, the
    replica's credits, and the credits of every row, stay non-negative
    through initialisation, feed events and debits.  The debit itself has no
    floor: it asks for [N - 1] whatever [N] is. *)
Theorem credits_nonnegative t acts :
  nonneg_table t →
  floor_respected (boot t) acts →
  0 ≤ Replica.credits (getReplica (run (boot t) acts))
  ∧ nonneg_table (subscriptions (run (boot t) acts)).
Proof.
  intros Ht. change (floor_respected (boot t) acts →
                     nonneg (run (boot t) acts)).
  assert (H0 : nonneg (boot t)) by (by split).
  revert H0. generalize (boot t) as w.
  induction acts as [|a acts IH]; intros w Hw Hf; [done|].
  destruct Hf as [Ha Hf]. apply IH; [|done]. by apply step_nonneg.
Qed.

Lemma credits_nonnegative_witness :
  0 ≤ Replica.credits
        (getReplica
           (run (boot (one_row "A" 2 "python"))
                [AuthStateChange (Some "A") true; CommitApp true true;
                 CommitApp true true; SolutionSuccess up;
                 Deliver 1 (credits_changed "A" "python" 2 1) true;
                 SolutionSuccess up])).
Proof.
  refine (proj1 (credits_nonnegative (one_row "A" 2 "python") _ _ _)).
  - intros u r. unfold one_row. rewrite lookup_singleton_Some.
    intros [_ <-]. cbn. lia.
  - vm_compute. repeat split; try done; intros; simplify_eq; discriminate.
Defined.

(** * Effect lifecycle and identity switch *)

Lemma callback_keeps_cleanup l os ou w :
  App.cleanup (app (solutionSuccess_callback l os ou w).1)
  = App.cleanup (app w)
  ∧ App.isInitialized (app (solutionSuccess_callback l os ou w).1)
    = App.isInitialized (app w)
  ∧ listeners (solutionSuccess_callback l os ou w).1 = listeners w.
Proof.
  open_world w. destruct os, ou.
  all: unfold_components; unfold_client; branches; done.
Qed.

(** [App] registers its callbacks right after [markInitialized], and
    [isInitialized] is never reset: while the state cell is false no
    callback is registered, and afterwards the first callback registered
    still tests the [false] it closed over. *)
Lemma uninitialized_has_no_listener t acts :
  App.isInitialized (app (run (boot t) acts)) = false →
  listeners (run (boot t) acts) = [].
Proof.
  pose (P := λ w, App.cleanup (app w) = None
                  ∧ (App.isInitialized (app w) = false → listeners w = [])).
  cut (P (run (boot t) acts)); [by intros [_ H]|].
  apply run_invariant; [done|].
  intros w a. destruct a; cbn [step].
  5: { apply (foldl_invariant P). intros v il [Hc Hl]. unfold dispatch.
       destruct (callback_keeps_cleanup il.2 (online il.1).1
                   (online il.1).2 v) as (E1 & E2 & E3).
       split; [by rewrite E1 | by rewrite E2, E3]. }
  all: subst P; cbn beta; open_world w; unfold_components; unfold_client;
    branches; intuition congruence.
Qed.

(** React never holds a cleanup for the credits effect, and so never runs
    one: the effect callback returns [undefined]. *)
Lemma cleanup_never_registered t acts :
  App.cleanup (app (run (boot t) acts)) = None.
Proof.
  apply (run_invariant (λ w, App.cleanup (app w) = None)); [done|].
  intros w a. destruct a; cbn [step].
  5: { apply (foldl_invariant (λ w, App.cleanup (app w) = None)).
       intros v il. unfold dispatch.
       by destruct (callback_keeps_cleanup il.2 (online il.1).1
                      (online il.1).2 v) as (-> & _). }
  all: open_world w; unfold_components; unfold_client; branches; congruence.
Qed.

(** C4 (the code at the failing input).  "A" signs in and [App] settles;
    then the identity switches to "B" and both components commit again.
    [AppContent] closes its channel for "A" and opens one for "B".  [App]'s
    effect does not run again and its cleanup was never registered: both of
    its "credits" channels stay subscribed for "A", [isInitialized] stays
    true, and the callback closed over "A" stays registered.  An Updated
    event for "A" then overwrites the credits, and a "solution success"
    signal debits the row of "A". *)
Theorem identity_switch_keeps_old_feed :
  (AppContent.user (content switched) = Some "B"
   ∧ session switched = Some "B"
   ∧ App.isInitialized (app switched) = true
   ∧ __IS_INITIALIZED__ (window switched) = Some true
   ∧ App.cleanup (app switched) = None)
  ∧ (map_to_list (filter <$> channels switched)
     = [(5%nat, Some "B"); (3%nat, Some "A"); (1%nat, Some "A")]
     ∧ listeners switched = [(2%nat, stale "A"); (4%nat, debiting "A")])
  ∧ (App.credits (app switched) = 5
     ∧ App.credits
         (app (broadcast (credits_changed "A" "java" 5 42) true switched))
       = 42
     ∧ __CREDITS__
         (window (broadcast (credits_changed "A" "java" 5 42) true switched))
       = Some 42)
  ∧ (credits <$> subscriptions switched !! "A" = Some 5
     ∧ credits <$> subscriptions (solutionSuccess up switched) !! "A"
       = Some 4).
Proof. vm_compute. auto 20. Qed.

(** * Further properties of the modelled code *)

(** ** [LanguageSelector.handleLanguageChange] *)

(** X1. For a signed-in user who owns a row, picking a language sends one
    update that rewrites the row's language and keeps its credits, and then
    stores the language in [AppContent] and in [window.__LANGUAGE__];
    [App]'s own language cell is not told. *)
Theorem language_change_stored newLanguage uid r w :
  session w = Some uid →
  subscriptions w !! uid = Some r →
  let w' := handleLanguageChange newLanguage true true w in
  subscriptions w' = <[uid := row (credits r) newLanguage]> (subscriptions w)
  ∧ AppContent.currentLanguage (content w') = newLanguage
  ∧ __LANGUAGE__ (window w') = Some newLanguage
  ∧ __CREDITS__ (window w') = __CREDITS__ (window w)
  ∧ app w' = app w
  ∧ console w' = console w
  ∧ requests w' =
      requests w ++ [auth_getUser;
                     from_update uid (patch_preferred_language newLanguage)].
Proof.
  intros Hs Hr. unfold handleLanguageChange, getUser, from_update_eq, update.
  rewrite Hs. cbn. rewrite Hr. cbn. rewrite <- (assoc_L (++)). auto 10.
Qed.

Lemma language_change_stored_witness :
  subscriptions (handleLanguageChange "java" true true (settled "A" 5 "python"))
    !! "A" = Some (row 5 "java")
  ∧ __LANGUAGE__
      (window (handleLanguageChange "java" true true (settled "A" 5 "python")))
    = Some "java".
Proof.
  assert (Hs : session (settled "A" 5 "python") = Some "A")
    by (vm_compute; reflexivity).
  assert (Hr : subscriptions (settled "A" 5 "python") !! "A"
               = Some (row 5 "python"))
    by (vm_compute; reflexivity).
  destruct (language_change_stored "java" "A" (row 5 "python")
              (settled "A" 5 "python") Hs Hr) as (Ht & _ & Hl & _).
  split; [|exact Hl]. rewrite Ht. apply lookup_insert_eq.
Defined.

(** X2. When nobody is signed in (or [getUser] fails), or when the update
    fails in transit, picking a language changes no state cell, no global
    and no row.  In the first case nothing is printed and nothing but
    [getUser] is requested; in the second the error is printed. *)
Theorem language_change_rejected newLanguage (online_user online_update : bool)
    w :
  (if online_user then session w else None) = None ∨ online_update = false →
  let w' := handleLanguageChange newLanguage online_user online_update w in
  state_kept w w'
  ∧ match (if online_user then session w else None) with
    | None => console w' = console w ∧ requests w' = requests w ++ [auth_getUser]
    | Some uid =>
        console w' =
          console w ++ [console_error "Error updating language:"
                          (Some FetchError)]
        ∧ requests w' =
            requests w
            ++ [auth_getUser;
                from_update uid (patch_preferred_language newLanguage)]
    end.
Proof.
  intros H. unfold handleLanguageChange, getUser, from_update_eq, update.
  cbn. destruct (if online_user then session w else None) as [uid|] eqn:Hu.
  - destruct H as [H | ->]; [done|]. cbn.
    rewrite <- (assoc_L (++)). by repeat split.
  - by repeat split.
Qed.

Lemma language_change_rejected_witness :
  state_kept (settled "A" 5 "python")
    (handleLanguageChange "java" true false (settled "A" 5 "python")).
Proof.
  exact (proj1 (language_change_rejected "java" true false
                  (settled "A" 5 "python") (or_intror eq_refl))).
Defined.

(** ** [AppContent.checkSubscriptionAndCredits] *)

(** X3. For a user whose row the select returns, the check marks the user
    subscribed and takes the row's credits; the row's language is taken and
    published only when it is not empty.  [App]'s cells and the table are
    left alone, and one select is all that is requested. *)
Theorem check_present_row uid r w :
  uid ≠ "" →
  subscriptions w !! uid = Some r →
  let w' := checkSubscriptionAndCredits (Some uid) true w in
  AppContent.isSubscribed (content w') = true
  ∧ AppContent.credits (content w') = Some (credits r)
  ∧ (if truthy (preferred_language r)
     then AppContent.currentLanguage (content w') = preferred_language r
          ∧ __LANGUAGE__ (window w') = Some (preferred_language r)
     else AppContent.currentLanguage (content w')
          = AppContent.currentLanguage (content w)
          ∧ window w' = window w)
  ∧ app w' = app w
  ∧ subscriptions w' = subscriptions w
  ∧ requests w' = requests w ++ [from_select (Some uid)].
Proof.
  intros Hid Hr. unfold checkSubscriptionAndCredits, select_maybeSingle,
    maybeSingle, has_id, truthy. cbn.
  rewrite (bool_decide_eq_true_2 (uid ≠ "")) by done. cbn. rewrite Hr. cbn.
  destruct (bool_decide (preferred_language r ≠ "")); cbn; auto 10.
Qed.

Lemma check_present_row_witness :
  AppContent.isSubscribed
    (content (checkSubscriptionAndCredits (Some "A") true
                (boot (one_row "A" 5 "java")))) = true
  ∧ AppContent.credits
      (content (checkSubscriptionAndCredits (Some "A") true
                  (boot (one_row "A" 5 "java")))) = Some 5.
Proof.
  destruct (check_present_row "A" (row 5 "java") (boot (one_row "A" 5 "java"))
              ltac:(discriminate) ltac:(vm_compute; reflexivity))
    as (H1 & H2 & _).
  exact (conj H1 H2).
Defined.

(** X4. When the select fails in transit the check cannot tell: it marks
    the user unsubscribed with 0 credits even if the row exists, and keeps
    the language and [window] as they were. *)
Theorem check_read_failure uid w :
  uid ≠ "" →
  let w' := checkSubscriptionAndCredits (Some uid) false w in
  AppContent.isSubscribed (content w') = false
  ∧ AppContent.credits (content w') = Some 0
  ∧ AppContent.currentLanguage (content w')
    = AppContent.currentLanguage (content w)
  ∧ window w' = window w
  ∧ app w' = app w
  ∧ subscriptions w' = subscriptions w.
Proof.
  intros Hid. unfold checkSubscriptionAndCredits, select_maybeSingle,
    maybeSingle, has_id, truthy. cbn.
  rewrite (bool_decide_eq_true_2 (uid ≠ "")) by done. cbn. auto 10.
Qed.

Lemma check_read_failure_witness :
  subscriptions (boot (one_row "A" 5 "java")) !! "A" = Some (row 5 "java")
  ∧ AppContent.isSubscribed
      (content (checkSubscriptionAndCredits (Some "A") false
                  (boot (one_row "A" 5 "java")))) = false.
Proof.
  split; [vm_compute; reflexivity|].
  exact (proj1 (check_read_failure "A" (boot (one_row "A" 5 "java"))
                  ltac:(discriminate))).
Defined.

(** ** The callbacks [App] registers *)

Lemma dispatch_keeps_effect online w il :
  App.cleanup (app (dispatch online w il)) = App.cleanup (app w)
  ∧ App.isInitialized (app (dispatch online w il)) = App.isInitialized (app w)
  ∧ listeners (dispatch online w il) = listeners w
  ∧ App.deps (app (dispatch online w il)) = App.deps (app w).
Proof.
  unfold dispatch. generalize (online il.1).1 (online il.1).2. intros os ou.
  destruct il as [id [[] uid]]; open_world w; destruct os, ou.
  all: unfold_components; unfold_client; branches; done.
Qed.

Lemma step_effect_phase w a : effect_phase w → effect_phase (step w a).
Proof.
  destruct a; cbn [step].
  5: { apply (foldl_invariant effect_phase). intros v il. unfold effect_phase.
       destruct (dispatch_keeps_effect online v il) as (-> & -> & -> & ->).
       done. }
  1: { unfold effect_phase. intros [Hc H].
       destruct w as [[cr la ini deps cl] cont win ses tab chs ls con req nid].
       cbn in *. subst cl. unfold commit_App. cbn.
       destruct deps as [[]|]; cbn in *.
       - destruct H as [-> H]. by rewrite decide_True.
       - destruct H as (-> & Hsk & Hlen). rewrite decide_False by done.
         cbn. unfold credits_effect, initializeAndSubscribe, getUser. cbn.
         destruct (if online_user then ses else None) as [uid|]; cbn.
         + split; [done|]. split; [done|].
           eexists _, [_]. split; [reflexivity|].
           repeat split; try done; cbn; lia.
         + split; [done|]. split; [done|].
           exists ls, []. rewrite (right_id_L [] (++)).
           repeat split; try done; cbn; lia.
       - destruct H as (-> & ->). rewrite decide_False by done.
         cbn. unfold credits_effect, initializeAndSubscribe, getUser. cbn.
         destruct (if online_user then ses else None) as [uid|]; cbn.
         + split; [done|]. split; [done|]. split; [|done].
           by repeat constructor.
         + split; [done|]. split; [done|]. split; [done|]. cbn. lia. }
  all: unfold effect_phase; intros [Hc H]; open_world w; unfold_components;
    unfold_client; branches; done.
Qed.

Lemma reachable_effect_phase t acts : effect_phase (run (boot t) acts).
Proof. apply run_invariant; [by split|]. apply step_effect_phase. Qed.

(** X5. However the run goes, [App] registers at most two "solution
    success" callbacks, and at most one of them has closed over
    [isInitialized = true]. *)
Theorem callbacks_bounded t acts :
  (length (listeners (run (boot t) acts)) ≤ 2)%nat
  ∧ (length (base.filter debits (listeners (run (boot t) acts))) ≤ 1)%nat.
Proof.
  destruct (reachable_effect_phase t acts) as [_ H].
  destruct (App.deps (app (run (boot t) acts))) as [[]|].
  - destruct H as (_ & ls1 & ls2 & -> & Hsk & H1 & H2).
    rewrite filter_app, !length_app. split; [lia|].
    assert (base.filter debits ls1 = []) as ->.
    { clear H1. induction Hsk as [|il ls Hil _ IH]; [done|].
      rewrite filter_cons_False; [done|].
      unfold debits. unfold skips in Hil. congruence. }
    pose proof (length_filter debits ls2). cbn. lia.
  - destruct H as (_ & Hsk & Hlen). split; [lia|].
    pose proof (length_filter debits (listeners (run (boot t) acts))). lia.
  - destruct H as (_ & ->). cbn. lia.
Qed.

Lemma dispatch_updates online w il :
  (updates_sent (dispatch online w il)
   ≤ updates_sent w + length (base.filter debits [il]))%nat.
Proof.
  unfold dispatch, updates_sent.
  generalize (online il.1).1 (online il.1).2. intros os ou.
  destruct il as [id [[] uid]].
  - rewrite filter_cons_True by done. cbn [length base.filter].
    open_world w. destruct os, ou.
    all: unfold_components; unfold_client; branches.
    all: rewrite ?filter_app, ?length_app; cbn.
    all: repeat case_decide; try done; cbn; lia.
  - rewrite callback_skips by done. cbn. lia.
Qed.

Lemma dispatch_all_updates online ls :
  ∀ w, (updates_sent (foldl (dispatch online) w ls)
        ≤ updates_sent w + length (base.filter debits ls))%nat.
Proof.
  induction ls as [|il ls IH]; intros w; [cbn; lia|].
  cbn [foldl]. specialize (IH (dispatch online w il)).
  pose proof (dispatch_updates online w il) as H.
  change (il :: ls) with ([il] ++ ls). rewrite filter_app, length_app. lia.
Qed.

(** X6. In every world a run can reach, one "solution success" signal
    sends at most one update to the table, whatever the network does. *)
Theorem one_update_per_signal t acts online :
  (updates_sent (solutionSuccess online (run (boot t) acts))
   ≤ updates_sent (run (boot t) acts) + 1)%nat.
Proof.
  unfold solutionSuccess.
  pose proof (dispatch_all_updates online (listeners (run (boot t) acts))
                (run (boot t) acts)).
  destruct (callbacks_bounded t acts) as [_ ?]. lia.
Qed.

Lemma dispatch_keeps_ready online w il :
  App.isInitialized (app (dispatch online w il)) = App.isInitialized (app w)
  ∧ __IS_INITIALIZED__ (window (dispatch online w il))
    = __IS_INITIALIZED__ (window w).
Proof.
  unfold dispatch. generalize (online il.1).1 (online il.1).2. intros os ou.
  destruct il as [id [[] uid]]; open_world w; destruct os, ou.
  all: unfold_components; unfold_client; branches; done.
Qed.

Lemma step_ready w a :
  App.cleanup (app w) = None →
  App.isInitialized (app w) = true ∧ __IS_INITIALIZED__ (window w) = Some true →
  App.isInitialized (app (step w a)) = true
  ∧ __IS_INITIALIZED__ (window (step w a)) = Some true.
Proof.
  destruct a; cbn [step].
  5: { intros _. apply (foldl_invariant
         (λ v, App.isInitialized (app v) = true
               ∧ __IS_INITIALIZED__ (window v) = Some true)).
       intros v il. by destruct (dispatch_keeps_ready online v il) as [-> ->]. }
  all: intros Hc [Hi Hw]; open_world w; unfold_components; unfold_client;
    branches; done.
Qed.

Lemma step_ready_published w a : ready_published w → ready_published (step w a).
Proof.
  destruct a; cbn [step].
  5: { apply (foldl_invariant ready_published). intros v il. unfold ready_published.
       destruct (dispatch_keeps_ready online v il) as [-> ->].
       by destruct (dispatch_keeps_effect online v il) as (-> & _). }
  all: unfold ready_published; intros [Hc Hi]; open_world w;
    unfold_components; unfold_client; branches; split; try done; intuition.
Qed.

(** X7. Once [isInitialized] is true it stays true, in the state cell and
    in [window.__IS_INITIALIZED__], whatever happens afterwards: nothing ever
    runs the cleanup that would reset it. *)
Theorem initialized_never_reset t acts acts' :
  App.isInitialized (app (run (boot t) acts)) = true →
  App.isInitialized (app (run (boot t) (acts ++ acts'))) = true
  ∧ __IS_INITIALIZED__ (window (run (boot t) (acts ++ acts'))) = Some true.
Proof.
  intros Hi. unfold run. rewrite foldl_app. fold (run (boot t) acts).
  assert (Hp : ready_published (run (boot t) acts)).
  { apply run_invariant; [by split|]. apply step_ready_published. }
  destruct Hp as [Hc Hw]. specialize (Hw Hi).
  generalize dependent (run (boot t) acts). intros w.
  induction acts' as [|a acts' IH] in w |- *; intros Hi Hc Hw; [done|].
  cbn [foldl]. destruct (step_ready w a Hc (conj Hi Hw)) as [Hi' Hw'].
  apply IH; [done| |done].
  destruct (step_ready_published w a) as [Hc' _]; [by split|done].
Qed.

Lemma initialized_never_reset_witness :
  App.isInitialized
    (app (run (boot (one_row "A" 5 "java"))
            ([AuthStateChange (Some "A") true; CommitApp true true]
             ++ [AuthStateChange None true; CommitApp true true;
                 SolutionSuccess up]))) = true.
Proof.
  exact (proj1 (initialized_never_reset (one_row "A" 5 "java")
                  [AuthStateChange (Some "A") true; CommitApp true true]
                  [AuthStateChange None true; CommitApp true true;
                   SolutionSuccess up]
                  ltac:(vm_compute; reflexivity))).
Defined.

(** ** The channel of [AppContent] *)

Lemma commit_App_shape ou os w :
  App.cleanup (app w) = None →
  let w' := commit_App ou os w in
  content w' = content w ∧ App.cleanup (app w') = None
  ∧ (channels w' = channels w ∧ listeners w' = listeners w
     ∧ (next_id w ≤ next_id w')%nat
     ∨ ∃ uid l,
         channels w' = <[next_id w := credits_channel uid]> (channels w)
         ∧ listeners w' = listeners w ++ [(S (next_id w), l)]
         ∧ next_id w' = S (S (next_id w))).
Proof.
  intros Hc. unfold commit_App. case_decide; [auto 10|].
  rewrite Hc. cbn [from_option].
  unfold credits_effect, initializeAndSubscribe, getUser. cbn.
  destruct (if ou then session w else None) as [uid|]; cbn; [|auto 10].
  split; [done|]. split; [done|]. right. eauto.
Qed.

Lemma checkSubscriptionAndCredits_frame user o w :
  let w' := checkSubscriptionAndCredits user o w in
  app w' = app w ∧ listeners w' = listeners w ∧ channels w' = channels w
  ∧ next_id w' = next_id w ∧ session w' = session w
  ∧ subscriptions w' = subscriptions w
  ∧ AppContent.user (content w') = AppContent.user (content w)
  ∧ AppContent.cleanup (content w') = AppContent.cleanup (content w)
  ∧ AppContent.deps (content w') = AppContent.deps (content w).
Proof.
  unfold checkSubscriptionAndCredits, select_maybeSingle.
  destruct (negb (has_id user)); cbn; [auto 10|].
  destruct (data (maybeSingle o user (subscriptions w))) as [s|]; cbn;
    [|auto 10].
  destruct (truthy (preferred_language s)); cbn; auto 10.
Qed.

Lemma commit_AppContent_shape o w :
  let user := AppContent.user (content w) in
  let w' := commit_AppContent o w in
  app w' = app w ∧ listeners w' = listeners w
  ∧ (AppContent.deps (content w) = Some user ∧ w' = w
     ∨ channels w' =
         <[next_id w := status_channel user]>
           (from_option (λ id, delete id (channels w)) (channels w)
              (AppContent.cleanup (content w)))
       ∧ next_id w' = S (next_id w)
       ∧ AppContent.cleanup (content w') = Some (next_id w)
       ∧ AppContent.deps (content w') = Some user).
Proof.
  unfold commit_AppContent. case_decide; [auto 10|].
  unfold subscription_effect, subscribe, fresh. cbn.
  set (v := from_option (λ c, unsubscribe c w) w
              (AppContent.cleanup (content w))).
  destruct (checkSubscriptionAndCredits_frame (AppContent.user (content w)) o v)
    as (Ha & Hl & Hc & Hn & _).
  rewrite Ha, Hl, Hc, Hn. subst v.
  destruct (AppContent.cleanup (content w)) as [id|]; cbn; auto 10.
Qed.

Lemma other_steps_frame w a :
  match a with
  | CommitApp _ _ | CommitAppContent _ | AuthStateChange _ _ => True
  | _ =>
      channels (step w a) = channels w ∧ next_id (step w a) = next_id w
      ∧ listeners (step w a) = listeners w
      ∧ App.cleanup (app (step w a)) = App.cleanup (app w)
      ∧ AppContent.cleanup (content (step w a)) = AppContent.cleanup (content w)
      ∧ AppContent.deps (content (step w a)) = AppContent.deps (content w)
  end.
Proof.
  destruct a; try done; cbn [step].
  2: { unfold solutionSuccess.
       apply (foldl_invariant
         (λ v, channels v = channels w ∧ next_id v = next_id w
               ∧ listeners v = listeners w
               ∧ App.cleanup (app v) = App.cleanup (app w)
               ∧ AppContent.cleanup (content v) = AppContent.cleanup (content w)
               ∧ AppContent.deps (content v) = AppContent.deps (content w)));
         [|done].
       intros v il (<- & <- & <- & <- & <- & <-). unfold dispatch.
       generalize (online il.1).1 (online il.1).2. intros os ou.
       destruct il as [id [[] uid]]; open_world v; destruct os, ou.
       all: unfold_components; unfold_client; branches; done. }
  all: open_world w; unfold_components; unfold_client; branches; done.
Qed.

Lemma tracked_after_status_commit o w :
  tracked w → tracked (commit_AppContent o w).
Proof.
  intros Hw.
  destruct (commit_AppContent_shape o w) as (Ha & Hl & [[_ ->]|H]);
    [exact Hw|].
  destruct Hw as (Hcl & [Hfc Hfl] & Ht1 & Ht2).
  destruct H as (Hch & Hn & Hc & Hd).
  set (w' := commit_AppContent o w) in *.
  assert (Hold : ∀ id c, channels w' !! id = Some c → id ≠ next_id w →
            channels w !! id = Some c
            ∧ AppContent.cleanup (content w) ≠ Some id).
  { intros id c Hid Hne. rewrite Hch, lookup_insert_ne in Hid by done.
    destruct (AppContent.cleanup (content w)) as [id0|]; cbn in Hid.
    - apply lookup_delete_Some in Hid as [Hne' Hid]. split; congruence.
    - done. }
  split; [by rewrite Ha|]. split; [split|split].
  - intros id c Hid. rewrite Hn. destruct (decide (id = next_id w)) as [->|Hne];
      [lia|]. apply Hold in Hid as [Hid _]; [|done]. apply Hfc in Hid. lia.
  - rewrite Hl, Hn. eapply Forall_impl; [exact Hfl|]. cbn. lia.
  - intros id c u Hid Hh. rewrite Hc, Hd.
    destruct (decide (id = next_id w)) as [->|Hne].
    + rewrite Hch, lookup_insert_eq in Hid. injection Hid as <-.
      cbn in Hh. by injection Hh as ->.
    + apply Hold in Hid as [Hid Hne']; [|done].
      by destruct (Ht1 id c u Hid Hh).
  - rewrite Hd. exists (next_id w). split; [done|].
    by rewrite Hch, lookup_insert_eq.
Qed.

Lemma step_tracked w a : tracked w → tracked (step w a).
Proof.
  intros Hw. pose proof (other_steps_frame w a) as Hframe.
  destruct a as [ou os|o|u o|id e o|online|uid r|nl ou o]; cbn [step] in *.
  - destruct Hw as (Hcl & [Hfc Hfl] & Ht1 & Ht2).
    destruct (commit_App_shape ou os w Hcl) as (Hcont & Hcl' & H).
    set (w' := commit_App ou os w) in *.
    split; [done|]. unfold status_tracked, fresh_ids. rewrite Hcont.
    destruct H as [(Hch & Hl & Hn)|(us & l & Hch & Hl & Hn)]; rewrite Hch, Hl.
    + split; [split|done].
      * intros i c Hi. apply Hfc in Hi. lia.
      * eapply Forall_impl; [exact Hfl|]. cbn. lia.
    + rewrite Hn. split; [split|split].
      * intros i c Hi. destruct (decide (i = next_id w)) as [->|Hne]; [lia|].
        rewrite lookup_insert_ne in Hi by done. apply Hfc in Hi. lia.
      * apply Forall_app. split; [|repeat constructor; cbn; lia].
        eapply Forall_impl; [exact Hfl|]. cbn. lia.
      * intros i c u Hi Hh. destruct (decide (i = next_id w)) as [->|Hne].
        -- rewrite lookup_insert_eq in Hi. injection Hi as <-. done.
        -- rewrite lookup_insert_ne in Hi by done. by apply (Ht1 i c u).
      * destruct (AppContent.deps (content w)) as [u|]; [|done].
        destruct Ht2 as (i & Hi & Hlook). exists i. split; [done|].
        rewrite lookup_insert_ne; [done|]. apply Hfc in Hlook. lia.
  - by apply tracked_after_status_commit.
  - unfold onAuthStateChange. apply tracked_after_status_commit.
    destruct Hw as (Hcl & [Hfc Hfl] & Ht1 & Ht2).
    split; [exact Hcl|]. split; [split; [exact Hfc|exact Hfl]|].
    split; [exact Ht1|exact Ht2].
  - destruct Hframe as (Hch & Hn & Hl & Hc & Hcc & Hd).
    unfold tracked, fresh_ids, status_tracked.
    rewrite Hch, Hn, Hl, Hc, Hcc, Hd. exact Hw.
  - destruct Hframe as (Hch & Hn & Hl & Hc & Hcc & Hd).
    unfold tracked, fresh_ids, status_tracked.
    rewrite Hch, Hn, Hl, Hc, Hcc, Hd. exact Hw.
  - destruct Hframe as (Hch & Hn & Hl & Hc & Hcc & Hd).
    unfold tracked, fresh_ids, status_tracked. cbn. exact Hw.
  - destruct Hframe as (Hch & Hn & Hl & Hc & Hcc & Hd).
    unfold tracked, fresh_ids, status_tracked.
    rewrite Hch, Hn, Hl, Hc, Hcc, Hd. exact Hw.
Qed.

Lemma reachable_tracked t acts : tracked (run (boot t) acts).
Proof.
  apply run_invariant; [|apply step_tracked].
  split; [done|]. split; [split; [|constructor]|split; [|done]].
  - intros id c Hid. cbn [boot channels] in Hid.
    by rewrite lookup_empty in Hid.
  - intros id c u Hid. cbn [boot channels] in Hid.
    by rewrite lookup_empty in Hid.
Qed.

(** X8. In every world a run can reach, the channels of [AppContent] that
    are subscribed number at most one: any such channel is the one the
    effect recorded for closing, and it was opened for the user of the last
    commit; and once the effect has run for some user, that channel is
    indeed subscribed. *)
Theorem status_channel_unique t acts :
  let w := run (boot t) acts in
  (∀ id c u, channels w !! id = Some c →
             handler c = sub_and_credits_handler u →
             AppContent.cleanup (content w) = Some id
             ∧ AppContent.deps (content w) = Some u)
  ∧ (∀ u, AppContent.deps (content w) = Some u →
          ∃ id, AppContent.cleanup (content w) = Some id
                ∧ channels w !! id = Some (status_channel u)).
Proof.
  destruct (reachable_tracked t acts) as (_ & _ & H1 & H2).
  split; [exact H1|]. intros u Hu. by rewrite Hu in H2.
Qed.

(** ** The cleanup function of [initializeAndSubscribe] *)

Lemma filter_fresh_listeners (ls : list (nat * SolutionSuccessListener)) n :
  Forall (λ il, (il.1 < n)%nat) ls →
  base.filter (λ il, il.1 ≠ S n) ls = ls.
Proof.
  induction 1 as [|il ls Hil _ IH]; [done|].
  rewrite filter_cons_True by lia. by rewrite IH.
Qed.

(** X9. Had React been given it, the cleanup function would undo what its
    run of [initializeAndSubscribe] registered: in any reachable world with
    a signed-in user, running the returned cleanup right after the run
    leaves the subscribed channels and the registered callbacks as they
    were before, and sets [isInitialized] to false in the state and in
    [window]; the published credits are not taken back. *)
Theorem cleanup_undoes_registration t acts isInitialized os uid :
  session (run (boot t) acts) = Some uid →
  ∃ c,
    (initializeAndSubscribe isInitialized true os (run (boot t) acts)).2
    = Some c
    ∧ let w := run (boot t) acts in
      let w1 := (initializeAndSubscribe isInitialized true os w).1 in
      let w2 := cleanup c w1 in
      channels w2 = channels w
      ∧ listeners w2 = listeners w
      ∧ App.isInitialized (app w2) = false
      ∧ __IS_INITIALIZED__ (window w2) = Some false
      ∧ App.credits (app w2) = App.credits (app w1)
      ∧ __CREDITS__ (window w2) = Some (App.credits (app w1))
      ∧ requests w2 = requests w1 ++ [channel_unsubscribe (next_id w)].
Proof.
  intros Hs. destruct (reachable_tracked t acts) as (_ & [Hfc Hfl] & _).
  set (w := run (boot t) acts) in *.
  unfold initializeAndSubscribe, getUser. rewrite Hs. cbn.
  eexists. split; [reflexivity|]. cbn.
  split; [|split; [|done]].
  - apply delete_insert_id. destruct (channels w !! next_id w) eqn:Hn; [|done].
    apply Hfc in Hn. lia.
  - rewrite filter_app, filter_cons_False, filter_nil by (cbn; tauto).
    rewrite (right_id_L [] (++)). by apply filter_fresh_listeners.
Qed.

Lemma cleanup_undoes_registration_witness :
  ∃ c,
    (initializeAndSubscribe true true true
       (signed_in "A" (one_row "A" 5 "java"))).2 = Some c
    ∧ channels
        (cleanup c
           (initializeAndSubscribe true true true
              (signed_in "A" (one_row "A" 5 "java"))).1)
      = channels (signed_in "A" (one_row "A" 5 "java"))
    ∧ listeners
        (cleanup c
           (initializeAndSubscribe true true true
              (signed_in "A" (one_row "A" 5 "java"))).1)
      = listeners (signed_in "A" (one_row "A" 5 "java")).
Proof.
  destruct (cleanup_undoes_registration (one_row "A" 5 "java")
              [AuthStateChange (Some "A") true; CommitApp true true;
               CommitApp true true]
              true true "A" ltac:(vm_compute; reflexivity))
    as (c & Hc & H).
  cbv zeta in H. destruct H as (H1 & H2 & _).
  exists c. split; [exact Hc|]. split; [exact H1|exact H2].
Defined.

(** ** Signing out *)

(** X10. When the auth state changes to signed-out after [AppContent] had
    committed for something else, the effect closes the recorded channel,
    resets [isSubscribed], credits and language to their signed-out values
    without any request to the table, and subscribes a channel without
    filter.  [window] is not written: [window.__LANGUAGE__] keeps the
    language of the user who left. *)
Theorem sign_out_resets o w :
  AppContent.deps (content w) ≠ Some None →
  let w' := onAuthStateChange None o w in
  AppContent.user (content w') = None
  ∧ AppContent.isSubscribed (content w') = false
  ∧ AppContent.credits (content w') = Some 0
  ∧ AppContent.currentLanguage (content w') = "python"
  ∧ window w' = window w
  ∧ app w' = app w
  ∧ subscriptions w' = subscriptions w
  ∧ channels w' =
      <[next_id w := status_channel None]>
        (from_option (λ id, delete id (channels w)) (channels w)
           (AppContent.cleanup (content w)))
  ∧ requests w' =
      requests w
      ++ from_option (λ id, [channel_unsubscribe id]) []
           (AppContent.cleanup (content w))
      ++ [channel_subscribe (next_id w) (status_channel None)].
Proof.
  intros Hd. unfold onAuthStateChange, commit_AppContent. cbn.
  rewrite decide_False by done.
  destruct (AppContent.cleanup (content w)) as [id|]; cbn.
  - rewrite <- (assoc_L (++)). auto 10.
  - auto 10.
Qed.

Lemma sign_out_resets_witness :
  AppContent.isSubscribed
    (content (signed_in "A" (one_row "A" 5 "java"))) = true
  ∧ AppContent.isSubscribed
      (content (onAuthStateChange None true
                  (signed_in "A" (one_row "A" 5 "java")))) = false
  ∧ __LANGUAGE__
      (window (onAuthStateChange None true
                 (signed_in "A" (one_row "A" 5 "java")))) = Some "java".
Proof.
  destruct (sign_out_resets true (signed_in "A" (one_row "A" 5 "java"))
              ltac:(vm_compute; discriminate))
    as (_ & H2 & _ & _ & H5 & _).
  split; [vm_compute; reflexivity|]. split; [exact H2|].
  rewrite H5. vm_compute. reflexivity.
Defined.

(** X11. The channel subscribed while nobody is signed in has no filter.
    An Inserted event delivered on it is ignored; an Updated or Deleted
    event, of whatever user, makes the handler select the row of an
    undefined id, which finds nothing: [isSubscribed] is set to false and
    the credits to 0. *)
Theorem signed_out_channel_events id e o w :
  channels w !! id = Some (status_channel None) →
  let w' := deliver id e o w in
  match e with
  | Inserted _ => w' = w
  | _ =>
      AppContent.isSubscribed (content w') = false
      ∧ AppContent.credits (content w') = Some 0
      ∧ AppContent.currentLanguage (content w')
        = AppContent.currentLanguage (content w)
      ∧ window w' = window w
      ∧ requests w' = requests w ++ [from_select None]
  end.
Proof.
  intros Hc. unfold deliver. rewrite Hc.
  destruct e as [new|old new|old]; cbn.
  - unfold sub_and_credits_payload. cbn. done.
  - unfold sub_and_credits_payload, select_maybeSingle, maybeSingle. cbn.
    destruct o; cbn; auto.
  - unfold sub_and_credits_payload, select_maybeSingle, maybeSingle. cbn.
    destruct o; cbn; auto.
Qed.

Lemma signed_out_channel_events_witness :
  requests
    (deliver 0 (credits_changed "A" "java" 5 4) true
       (commit_AppContent true (boot (one_row "A" 5 "java"))))
  = requests (commit_AppContent true (boot (one_row "A" 5 "java")))
    ++ [from_select None].
Proof.
  destruct (signed_out_channel_events 0 (credits_changed "A" "java" 5 4) true
              (commit_AppContent true (boot (one_row "A" 5 "java")))
              ltac:(vm_compute; reflexivity)) as (_ & _ & _ & _ & H).
  exact H.
Defined.

(** ** The screen of [AppContent] *)

(** X12. The subscribed application is rendered exactly when the auth check
    is over, a user is present, no subscription check is running,
    [isInitialized] is true, the credits are loaded and the user is
    subscribed; the credits handed to it are then never undefined. *)
Theorem subscribed_app_shown loading subscriptionLoading isInitialized s c l :
  AppContent_screen loading subscriptionLoading isInitialized s
  = SubscribedApp c l
  ↔ loading = false ∧ is_Some (AppContent.user s)
    ∧ subscriptionLoading = false ∧ isInitialized = true
    ∧ AppContent.isSubscribed s = true
    ∧ is_Some c ∧ c = AppContent.credits s
    ∧ l = AppContent.currentLanguage s.
Proof.
  unfold AppContent_screen.
  destruct s as [user sub cr la d cl]; cbn.
  destruct loading, subscriptionLoading, isInitialized, user as [u|], sub,
    cr as [n|]; cbn; split.
  all: try (intros [= <- <-]); try discriminate.
  all: try (intros (?&?&?&?&?&?&?&?); try discriminate).
  all: try (by match goal with H : is_Some None |- _ => destruct H end).
  all: try (subst; done).
  all: repeat split; eauto.
Qed.

(** X13. As long as a user is present and [isInitialized] is false, a
    spinner is rendered, never the subscribe page or the application; with
    no user and the auth check over, the sign-in form is rendered whatever
    the other flags say. *)
Theorem screen_before_initialization loading subscriptionLoading s :
  (is_Some (AppContent.user s) →
   ∃ message, AppContent_screen loading subscriptionLoading false s
              = spinner message)
  ∧ (AppContent.user s = None →
     ∀ isInitialized, AppContent_screen false subscriptionLoading isInitialized s
                      = AuthForm_screen).
Proof.
  unfold AppContent_screen. destruct s as [user sub cr la d cl]; cbn. split.
  - intros [u ->]. rewrite bool_decide_eq_true_2 by eauto.
    rewrite orb_true_r. cbn. rewrite orb_true_r. eauto.
  - intros ->. intros isInitialized. rewrite bool_decide_eq_false_2; [done|].
    by intros [? ?].
Qed.

(** ** The "Solve" entries of [QueueCommands] *)

(** X14. A click on "Solve" in the bar starts processing exactly when the
    credits are positive; with credits at or below 0 all it does is show
    the "Out of Credits" toast.  When processing is started and the call
    fails or throws, exactly the error toast is added. *)
Theorem solve_needs_credits credits ipc :
  (QueueCommands.triggerProcessScreenshots
     ∈ QueueCommands.solve_onClick credits ipc ↔ 0 < credits)
  ∧ (credits ≤ 0 →
     ∃ description,
       QueueCommands.solve_onClick credits ipc
       = [QueueCommands.showToast "Out of Credits" description "error"])
  ∧ (0 < credits → ipc ≠ QueueCommands.result true →
     QueueCommands.showToast "Error" "Failed to process screenshots" "error"
       ∈ QueueCommands.solve_onClick credits ipc).
Proof.
  unfold QueueCommands.solve_onClick.
  destruct (Z.leb_spec credits 0) as [Hle|Hlt].
  - split; [|split]; [|eauto|lia].
    split; [|lia]. intros H. apply list_elem_of_singleton in H. discriminate.
  - split; [|split]; [|lia|].
    + split; [done|]. intros _. unfold QueueCommands.process. left.
    + intros _ Hipc. unfold QueueCommands.process, QueueCommands.process_failed.
      destruct ipc as [[]|]; [done|..]; do 2 right; left.
Qed.

(** X15. The "Solve" entry of the tooltip does not look at the credits: as
    soon as there is a screenshot it starts processing, also when the entry
    of the bar refuses for lack of credits; with credits, both entries do
    the same. *)
Theorem tooltip_solve_ignores_credits credits screenshotCount ipc :
  screenshotCount ≠ 0 →
  QueueCommands.triggerProcessScreenshots
    ∈ QueueCommands.tooltip_solve_onClick screenshotCount ipc
  ∧ (credits ≤ 0 →
     QueueCommands.triggerProcessScreenshots
       ∉ QueueCommands.solve_onClick credits ipc)
  ∧ (0 < credits →
     QueueCommands.tooltip_solve_onClick screenshotCount ipc
     = QueueCommands.solve_onClick credits ipc).
Proof.
  intros Hn. unfold QueueCommands.tooltip_solve_onClick,
    QueueCommands.solve_onClick.
  destruct (Z.eqb_spec screenshotCount 0) as [|_]; [done|].
  split; [left|].
  destruct (Z.leb_spec credits 0) as [Hle|Hlt]; split; try lia; try done.
  intros _ H. apply list_elem_of_singleton in H. discriminate.
Qed.

Lemma tooltip_solve_ignores_credits_witness :
  QueueCommands.triggerProcessScreenshots
    ∈ QueueCommands.tooltip_solve_onClick 1 (QueueCommands.result true)
  ∧ QueueCommands.triggerProcessScreenshots
      ∉ QueueCommands.solve_onClick 0 (QueueCommands.result true).
Proof.
  destruct (tooltip_solve_ignores_credits 0 1 (QueueCommands.result true)
              ltac:(lia)) as (H1 & H2 & _).
  split; [exact H1|]. apply H2. lia.
Defined.

(** ** The PKCE callback *)

(** X16. The callback asks for a session exchange exactly when the callback
    data carries a code that is not empty, and with that code: without
    data, without a code or with an empty one nothing is sent to the
    backend. *)
Theorem pkce_exchange_needs_code data x code :
  PKCE.exchangeCodeForSession code ∈ PKCE.handleAuthCallbackPKCE data x
  ↔ data = Some (Some code) ∧ code ≠ "".
Proof.
  unfold PKCE.handleAuthCallbackPKCE, truthy.
  destruct data as [[c|]|]; cbn.
  - case_bool_decide as Hc; split.
    + intros H. repeat (apply elem_of_cons in H as [H|H]; try discriminate).
      * by injection H as ->.
      * destruct x; discriminate.
      * by apply not_elem_of_nil in H.
    + intros [[= ->] _]. right. left.
    + intros H. repeat (apply elem_of_cons in H as [H|H]; try discriminate).
      by apply not_elem_of_nil in H.
    + intros [[= ->] Hne]. by destruct Hc.
  - split; [|by intros [? _]].
    intros H. repeat (apply elem_of_cons in H as [H|H]; try discriminate).
    by apply not_elem_of_nil in H.
  - split; [|by intros [? _]].
    intros H. repeat (apply elem_of_cons in H as [H|H]; try discriminate).
    by apply not_elem_of_nil in H.
Qed.

(** ** [AuthForm] *)

(** X17. No sign-up request leaves the form with a password of fewer than 6
    code units: whatever [handleEmailAuth] sends to [signUp] is the email
    and the password of the form, and that password has at least 6. *)
Theorem sign_up_password_length origin auth session_set r e p redirect :
  AuthForm.signUp e p redirect
    ∈ (AuthForm.handleEmailAuth origin auth session_set r).2 →
  e = AuthForm.email r ∧ p = AuthForm.password r ∧ (6 ≤ length p)%nat.
Proof.
  unfold AuthForm.handleEmailAuth, AuthForm.validatePassword,
    AuthForm.caught.
  destruct (AuthForm.isSignUp r); cbn -[Nat.ltb].
  - destruct (Nat.ltb_spec (length (AuthForm.password r)) 6) as [Hlt|Hge]; cbn.
    + intros H. repeat (apply elem_of_cons in H as [H|H]; try discriminate).
      by apply not_elem_of_nil in H.
    + intros H. apply elem_of_cons in H as [H|H]; [discriminate|].
      apply elem_of_cons in H as [H|H]; [by injection H as -> -> _|].
      destruct auth as [|[m|] []], session_set; cbn in H;
        repeat (apply elem_of_cons in H as [H|H]; try discriminate);
        by apply not_elem_of_nil in H.
  - intros H. apply elem_of_cons in H as [H|H]; [discriminate|].
    apply elem_of_cons in H as [H|H]; [discriminate|].
    destruct auth as [|[m|] []], session_set; cbn in H;
      repeat (apply elem_of_cons in H as [H|H]; try discriminate);
      by apply not_elem_of_nil in H.
Qed.

Lemma sign_up_password_length_witness :
  (6 ≤ length [115; 101; 99; 114; 101; 116]%N)%nat.
Proof.
  refine (proj2 (proj2
    (sign_up_password_length "app://." (AuthForm.returns None true) true
       (AuthForm.setIsSignUp true
          (AuthForm.setPassword [115; 101; 99; 114; 101; 116]%N
             AuthForm.initial))
       [] [115; 101; 99; 114; 101; 116]%N "app://./auth/callback" _))).
  vm_compute. right. left.
Defined.

(** X18. A sign-up submitted with a password of fewer than 6 code units is
    turned down on the spot: nothing is sent, the password error is shown,
    the form shakes and the reset of the shake is scheduled; the loading
    flag and the error line are not touched. *)
Theorem short_sign_up_rejected origin auth session_set r :
  AuthForm.isSignUp r = true →
  (length (AuthForm.password r) < 6)%nat →
  let k := AuthForm.handleEmailAuth origin auth session_set r in
  k.2 = [AuthForm.preventDefault; AuthForm.setTimeout AuthForm.reset_shake 500]
  ∧ AuthForm.passwordError k.1 = "Password must be at least 6 characters"
  ∧ AuthForm.shake k.1 = true
  ∧ AuthForm.isLoading k.1 = AuthForm.isLoading r
  ∧ AuthForm.error k.1 = AuthForm.error r
  ∧ AuthForm.shake (AuthForm.fire AuthForm.reset_shake k.1) = false.
Proof.
  intros Hs Hlt. unfold AuthForm.handleEmailAuth, AuthForm.validatePassword.
  rewrite Hs. cbn -[Nat.ltb]. apply Nat.ltb_lt in Hlt. rewrite Hlt. cbn. auto 10.
Qed.

Lemma short_sign_up_rejected_witness :
  (AuthForm.handleEmailAuth "app://." AuthForm.throws true
     (AuthForm.toggleMode AuthForm.initial)).2
  = [AuthForm.preventDefault; AuthForm.setTimeout AuthForm.reset_shake 500].
Proof.
  exact (proj1 (short_sign_up_rejected "app://." AuthForm.throws true
                  (AuthForm.toggleMode AuthForm.initial) eq_refl
                  ltac:(cbn; lia))).
Defined.

(** X19. Whatever the backend answers, [handleEmailAuth] started on a form
    that is not loading ends with the loading flag off, and
    [handleGoogleAuth] leaves it on exactly when the OAuth call returned
    without error. *)
Theorem loading_flag_after_auth origin dev auth session_set r :
  (AuthForm.isLoading r = false →
   AuthForm.isLoading
     (AuthForm.handleEmailAuth origin auth session_set r).1 = false)
  ∧ (AuthForm.isLoading (AuthForm.handleGoogleAuth dev auth r).1 = true
     ↔ ∃ session, auth = AuthForm.returns None session).
Proof.
  split.
  - intros Hl. unfold AuthForm.handleEmailAuth, AuthForm.validatePassword,
      AuthForm.caught.
    destruct (AuthForm.isSignUp r); cbn -[Nat.ltb].
    + destruct (length (AuthForm.password r) <? 6)%nat; cbn; [done|].
      by destruct auth as [|[m|] []], session_set.
    + by destruct auth as [|[m|] []], session_set.
  - unfold AuthForm.handleGoogleAuth.
    destruct auth as [|[m|] b]; cbn; split; try done; eauto.
    + by intros [? ?].
    + by intros [? ?].
Qed.

(** X20. Every shake comes with its reset: if the form shakes after
    [handleEmailAuth] or [handleGoogleAuth] and did not before, the handler
    has scheduled [setShake(false)] 500 ms later. *)
Theorem shake_is_reset origin dev auth session_set r :
  AuthForm.shake r = false →
  (AuthForm.shake (AuthForm.handleEmailAuth origin auth session_set r).1
   = true →
   AuthForm.setTimeout AuthForm.reset_shake 500
     ∈ (AuthForm.handleEmailAuth origin auth session_set r).2)
  ∧ (AuthForm.shake (AuthForm.handleGoogleAuth dev auth r).1 = true →
     AuthForm.setTimeout AuthForm.reset_shake 500
       ∈ (AuthForm.handleGoogleAuth dev auth r).2).
Proof.
  intros Hr. split.
  - unfold AuthForm.handleEmailAuth, AuthForm.validatePassword,
      AuthForm.caught.
    destruct (AuthForm.isSignUp r); cbn -[Nat.ltb].
    + destruct (length (AuthForm.password r) <? 6)%nat; cbn.
      * intros _. right. left.
      * destruct auth as [|[m|] []], session_set; cbn; intros H;
          try congruence; set_solver.
    + destruct auth as [|[m|] []], session_set; cbn; intros H;
        try congruence; set_solver.
  - unfold AuthForm.handleGoogleAuth.
    destruct auth as [|[m|] b]; cbn; intros H; try congruence; set_solver.
Qed.

Lemma shake_is_reset_witness :
  AuthForm.setTimeout AuthForm.reset_shake 500
    ∈ (AuthForm.handleGoogleAuth true AuthForm.throws AuthForm.initial).2.
Proof.
  exact (proj2 (shake_is_reset "app://." true AuthForm.throws true
                  AuthForm.initial eq_refl) eq_refl).
Defined.

Lemma form_step_password s ev :
  (AuthForm.isSignUp s = true →
   AuthForm.password s = [] ∨ (6 ≤ length (AuthForm.password s))%nat
   ∨ AuthForm.passwordError s ≠ "") →
  AuthForm.isSignUp (AuthForm.step s ev) = true →
  AuthForm.password (AuthForm.step s ev) = []
  ∨ (6 ≤ length (AuthForm.password (AuthForm.step s ev)))%nat
  ∨ AuthForm.passwordError (AuthForm.step s ev) ≠ "".
Proof.
  intros IH. destruct ev as [v|v| |origin auth ss|dev auth|[]]; cbn.
  - exact IH.
  - unfold AuthForm.handlePasswordChange, AuthForm.validatePassword.
    destruct (AuthForm.isSignUp s) eqn:Hs.
    + case_bool_decide as Hv; cbn -[Nat.ltb]; [subst v; by left|].
      destruct (Nat.ltb_spec (length v) 6); cbn; intros _;
        [by right; right|by right; left].
    + rewrite andb_false_r. cbn. congruence.
  - by left.
  - unfold AuthForm.handleEmailAuth, AuthForm.validatePassword,
      AuthForm.caught.
    destruct (AuthForm.isSignUp s) eqn:Hs; cbn -[Nat.ltb].
    + destruct (Nat.ltb_spec (length (AuthForm.password s)) 6); cbn.
      * intros _. by right; right.
      * intros _. right; left.
        by destruct auth as [|[m|] []], ss.
    + destruct auth as [|[m|] []], ss; cbn; congruence.
  - unfold AuthForm.handleGoogleAuth.
    destruct auth as [|[m|] b]; cbn; exact IH.
  - exact IH.
  - done.
Qed.

(** X21. However the form is used, in sign-up mode the submit button is
    enabled only with a password of at least 6 code units: a shorter one,
    if not empty, always shows the password error. *)
Theorem sign_up_submit_enabled evs :
  AuthForm.isSignUp (AuthForm.run evs) = true →
  AuthForm.submit_disabled (AuthForm.run evs) = false →
  (6 ≤ length (AuthForm.password (AuthForm.run evs)))%nat.
Proof.
  assert (H : AuthForm.isSignUp (AuthForm.run evs) = true →
              AuthForm.password (AuthForm.run evs) = []
              ∨ (6 ≤ length (AuthForm.password (AuthForm.run evs)))%nat
              ∨ AuthForm.passwordError (AuthForm.run evs) ≠ "").
  { induction evs as [|ev evs IH] using rev_ind; [cbn; congruence|].
    unfold AuthForm.run in *. rewrite foldl_app. cbn [foldl].
    by apply form_step_password. }
  intros Hs Hd. specialize (H Hs). unfold AuthForm.submit_disabled in Hd.
  apply orb_false_elim in Hd as [Hd Hpe].
  apply orb_false_elim in Hd as [_ Hp].
  apply bool_decide_eq_false in Hp. apply negb_false_iff in Hpe.
  apply bool_decide_eq_true in Hpe. destruct H as [H|[H|H]]; done.
Qed.

Lemma sign_up_submit_enabled_witness :
  (6 ≤ length
         (AuthForm.password
            (AuthForm.run [AuthForm.click_toggle;
                           AuthForm.type_email [97; 64; 98]%N;
                           AuthForm.type_password
                             [115; 101; 99; 114; 101; 116]%N])))%nat.
Proof.
  exact (sign_up_submit_enabled
           [AuthForm.click_toggle; AuthForm.type_email [97; 64; 98]%N;
            AuthForm.type_password [115; 101; 99; 114; 101; 116]%N]
           eq_refl eq_refl).
Defined.
